(** * MindSync server bootstrap: configuration, admission pipeline, lifecycle

    A shallow embedding of the four TypeScript modules of the server:

    - [config]       the configuration record read from [process.env];
    - [lib]          the rate limiter options;
    - [routes]       the route mounter [mindSyncRoute];
    - [server]       CORS options, the middleware chain, the start-up
                     IIFE and the shutdown handler.

    JavaScript values are modelled by the types the code gives them:
    [process.env] is a finite map from names to strings, an optional string
    is [option string], object literals are records, thrown values are
    [js_error].  Effects (console output, the Express layer stack, signal
    listeners, the limiter's counters, exceptions and [process.exit]) are
    threaded through a state-and-exception monad [M]. *)

From Stdlib Require Import ZArith String List Bool Lia.
From stdpp Require Import base strings gmap list pretty.

Local Open Scope string_scope.
Local Open Scope Z_scope.

(** * Part I: the program *)

(** ** JavaScript truthiness of the values the code tests *)

(** [process.env.X] and the [origin] argument are [undefined] or a string; a
    string is truthy unless it is empty. *)
Definition truthy (v : option string) : bool :=
  match v with
  | Some s => negb (String.eqb s "")
  | None => false
  end.

(** [v === 'lit'] where [v] is a string or [undefined]. *)
Definition strict_eq (v : option string) (lit : string) : bool :=
  match v with
  | Some s => String.eqb s lit
  | None => false
  end.

(** [xs.includes(v)] on an array of strings. *)
Definition includes (xs : list string) (v : option string) : bool :=
  match v with
  | Some s => existsb (String.eqb s) xs
  | None => false
  end.

(** A template literal's rendering of a string-or-undefined value. *)
Definition render (v : option string) : string :=
  match v with
  | Some s => s
  | None => "undefined"
  end.

(** ** config/index.ts *)

(** [process.env.PORT || 3000]: the string from the environment, or the
    number literal. *)
Inductive port :=
| PortEnv (s : string)
| PortNumber (n : Z).

Record Config := {
  PORT : port;
  NODE_ENV : option string;
  WHITELIST_ORIGINS : list string;
}.

(** The exported [config] object, as a function of [process.env] as
    [dotenv.config()] left it. *)
Definition config (process_env : gmap string string) : Config :=
  {| PORT :=
       if truthy (process_env !! "PORT")
       then match process_env !! "PORT" with
            | Some s => PortEnv s
            | None => PortNumber 3000
            end
       else PortNumber 3000;
     NODE_ENV := process_env !! "NODE_ENV";
     WHITELIST_ORIGINS :=
       if truthy (process_env !! "NODE_ORIGIN")
       then match process_env !! "NODE_ORIGIN" with
            | Some o => ["http://localhost:5173"; o]
            | None => ["http://localhost:5173"]
            end
       else ["http://localhost:5173"];
  |}.

(** Template-literal rendering of [config.PORT]. *)
Definition port_to_string (p : port) : string :=
  match p with
  | PortEnv s => s
  | PortNumber n => pretty n
  end.

(** ** Values exchanged with Express *)

(** [new Error(message)], and more generally a thrown value. *)
Inductive js_error := Error (message : string).

(** The object literals the code sends as response bodies. *)
#[warnings="-register-all"]
Inductive json :=
| JBool (b : bool)
| JString (s : string)
| JObject (fields : list (string * json)).

(** Arguments of a [console.log] call. *)
Inductive log_arg :=
| LStr (s : string)
| LErr (e : js_error).

Record request := {
  method : string;
  path : string;
  origin_header : option string;   (* req.headers.origin *)
  ip : string;                     (* the limiter's client key *)
  arrival : Z;                     (* arrival time, ms *)
}.

(** What a request ends with: a response that was sent, the default error
    handler (no error-handling middleware is registered), or the default
    "not found" answer when every layer passed the request on. *)
Inductive reply :=
| Sent (status : Z) (body : json)
| Errored (e : js_error)
| NotFound.

(** ** lib/index.ts *)

Record RateLimitOptions := {
  windowMs : Z;
  limit : Z;
  standardHeaders : string;
  legacyHeaders : bool;
  message : json;
}.

(** The middleware values passed to [app.use].  Closures are named by the
    expression that builds them. *)
Inductive middleware :=
| cors_corOptions                         (* cors(corOptions) *)
| express_json                            (* express.json() *)
| express_urlencoded (extended : bool)    (* express.urlencoded({ extended }) *)
| cookieParser                            (* cookieParser() *)
| compression (threshold : Z)             (* compression({ threshold }) *)
| helmet                                  (* helmet() *)
| rateLimit (opts : RateLimitOptions)     (* rateLimit({ ... }) *)
| health                                  (* (req, res) => res.send({ ... }) *)
| AuthRoute.                              (* the router imported from ./v1 *)

(** The options object passed to [rateLimit]. *)
Definition limiter_options : RateLimitOptions :=
  {| windowMs := 60000;
     limit := 60;
     standardHeaders := "draft-8";
     legacyHeaders := false;
     message :=
       JObject
         [("error",
           JString "You have sent too many request in a given amount of time. Please try again later.")];
  |}.

Definition limiter : middleware := rateLimit limiter_options.

(** ** The process state and the effect monad *)

Record layer := { mount : string; handle : middleware }.

(** A rate-limit counter entry. *)
Record entry := { count : Z; windowStart : Z }.

(** Functions registered with [process.on]. *)
Inductive listener := handleServerShutdown_fn.

(** Observable effects, oldest first. *)
Inductive event :=
| Logged (args : list log_arg)     (* console.log(...args) *)
| Replied (r : reply).             (* the request was answered *)

Record process := {
  trace : list event;
  stack : list layer;                     (* the app's layers, in app.use order *)
  listening : option port;
  listeners : list (string * listener);   (* process.on registrations *)
  uncaught : list js_error;               (* errors escaping an async function or a callback *)
  hits : gmap string entry;               (* the limiter's store *)
  res : option reply;                     (* the response of the request in flight *)
  final : option reply;                   (* what the final handler will answer once the turn ends *)
}.

(** The state right after [const app = express()]. *)
Definition boot : process :=
  {| trace := []; stack := []; listening := None; listeners := [];
     uncaught := []; hits := ∅; res := None; final := None |}.

Definition emit (e : event) (s : process) : process :=
  {| trace := trace s ++ [e]; stack := stack s; listening := listening s;
     listeners := listeners s; uncaught := uncaught s; hits := hits s;
     res := res s; final := final s |}.

Definition push_layer (l : layer) (s : process) : process :=
  {| trace := trace s; stack := stack s ++ [l]; listening := listening s;
     listeners := listeners s; uncaught := uncaught s; hits := hits s;
     res := res s; final := final s |}.

Definition set_listening (p : port) (s : process) : process :=
  {| trace := trace s; stack := stack s; listening := Some p;
     listeners := listeners s; uncaught := uncaught s; hits := hits s;
     res := res s; final := final s |}.

Definition add_listener (sig : string) (f : listener) (s : process) : process :=
  {| trace := trace s; stack := stack s; listening := listening s;
     listeners := listeners s ++ [(sig, f)]; uncaught := uncaught s;
     hits := hits s; res := res s; final := final s |}.

Definition add_uncaught (e : js_error) (s : process) : process :=
  {| trace := trace s; stack := stack s; listening := listening s;
     listeners := listeners s; uncaught := uncaught s ++ [e]; hits := hits s;
     res := res s; final := final s |}.

Definition set_hits (h : gmap string entry) (s : process) : process :=
  {| trace := trace s; stack := stack s; listening := listening s;
     listeners := listeners s; uncaught := uncaught s; hits := h;
     res := res s; final := final s |}.

Definition set_res (r : option reply) (s : process) : process :=
  {| trace := trace s; stack := stack s; listening := listening s;
     listeners := listeners s; uncaught := uncaught s; hits := hits s;
     res := r; final := final s |}.

Definition set_final (r : option reply) (s : process) : process :=
  {| trace := trace s; stack := stack s; listening := listening s;
     listeners := listeners s; uncaught := uncaught s; hits := hits s;
     res := res s; final := r |}.

(** How a computation ends: normally, by throwing, or in [process.exit]. *)
Inductive outcome (A : Type) :=
| Ok (a : A)
| Throw (e : js_error)
| Exit (code : Z).
Arguments Ok {A} a.
Arguments Throw {A} e.
Arguments Exit {A} code.

Definition M (A : Type) : Type := process -> outcome A * process.

#[global] Instance M_ret : MRet M := fun A a s => (Ok a, s).

#[global] Instance M_bind : MBind M := fun A B f m s =>
  match m s with
  | (Ok a, s') => f a s'
  | (Throw e, s') => (Throw e, s')
  | (Exit c, s') => (Exit c, s')
  end.

(** [try { body } catch (error) { handler }]: [process.exit] is not an
    exception and is not caught. *)
Definition try_catch {A} (body : M A) (handler : js_error -> M A) : M A :=
  fun s =>
    match body s with
    | (Throw e, s') => handler e s'
    | r => r
    end.

(** Calling an [async] function (or running a callback from the event
    loop): what it throws rejects a promise nobody awaits and does not reach
    the caller, which goes on.  The rejection stays in [uncaught]; what the
    runtime does about it when the turn ends is [turn]. *)
Definition async (body : M unit) : M unit :=
  fun s =>
    match body s with
    | (Throw e, s') => (Ok tt, add_uncaught e s')
    | r => r
    end.

(** One turn of the event loop.  When the synchronous code of the turn has
    run to its end and left a rejection nobody handles (or an exception
    thrown by a callback), the runtime ends the process with status 1. *)
Definition turn (body : M unit) : M unit :=
  fun s =>
    match body s with
    | (Ok u, s') =>
        if (length (uncaught s) <? length (uncaught s'))%nat
        then (Exit 1, s')
        else (Ok u, s')
    | r => r
    end.

Definition process_exit {A} (code : Z) : M A := fun s => (Exit code, s).

Definition process_on (sig : string) (f : listener) : M unit :=
  fun s => (Ok tt, add_listener sig f s).

(** ** The host: what the code calls but does not define *)

(** What a library middleware does with a request. *)
Inductive stage_result :=
| Next                 (* next() *)
| Respond (r : reply)  (* ends the response itself *)
| Fail (e : js_error). (* next(err) *)

(** The calls into the runtime and the libraries can fail, and the library
    middlewares decide by code that is not in the repository: a [World]
    fixes both. *)
Record World := {
  log_fault : list log_arg -> option js_error;      (* console.log throws *)
  use_fault : string -> middleware -> option js_error; (* app.use throws *)
  listen_fault : port -> option js_error;           (* app.listen throws *)
  bind_fault : port -> option js_error;             (* the bind fails later *)
  fatal_signal : string -> option Z;
    (* the number of a signal whose default action ends the process *)
  third_party : middleware -> request -> stage_result;
}.

(** The signals whose default action ends a process, with their numbers on
    Linux; the other signals are ignored by default. *)
Definition posix_fatal (sig : string) : option Z :=
  if String.eqb sig "SIGHUP" then Some 1
  else if String.eqb sig "SIGINT" then Some 2
  else if String.eqb sig "SIGQUIT" then Some 3
  else if String.eqb sig "SIGUSR2" then Some 12
  else if String.eqb sig "SIGTERM" then Some 15
  else None.

(** The world in which nothing fails and every library stage passes the
    request on. *)
Definition calm : World :=
  {| log_fault := fun _ => None;
     use_fault := fun _ _ => None;
     listen_fault := fun _ => None;
     bind_fault := fun _ => None;
     fatal_signal := posix_fatal;
     third_party := fun _ _ => Next |}.

Definition console_log (w : World) (args : list log_arg) : M unit :=
  fun s =>
    match log_fault w args with
    | Some e => (Throw e, s)
    | None => (Ok tt, emit (Logged args) s)
    end.

Definition app_use (w : World) (path : string) (mw : middleware) : M unit :=
  fun s =>
    match use_fault w path mw with
    | Some e => (Throw e, s)
    | None => (Ok tt, push_layer {| mount := path; handle := mw |} s)
    end.

(** [app.listen(port, callback)].  Arguments that [listen] refuses (a port
    out of range) make it throw at once.  Otherwise the bind is attempted
    after the call has returned, and its result arrives as an event:
    Express registers the callback for 'listening' and for 'error' alike, so
    the callback runs from the event loop in both cases, and a bind failure
    (the port is taken) leaves no listening socket and throws nothing.
    The callback is run here, at the point of the call. *)
Definition app_listen (w : World) (p : port) (callback : M unit) : M unit :=
  fun s =>
    match listen_fault w p with
    | Some e => (Throw e, s)
    | None =>
        match bind_fault w p with
        | Some _ => async callback s
        | None => async callback (set_listening p s)
        end
    end.

(** Ending the response: the first answer stands. *)
Definition finish (r : reply) : M unit :=
  fun s =>
    match res s with
    | Some _ => (Ok tt, s)
    | None => (Ok tt, emit (Replied r) (set_res (Some r) s))
    end.

(** Modelled from Express: an error passed to [next], and a request that
    no layer answered, go to the final handler.  Express runs it in a later
    turn ([setImmediate]), so its answer is written after the synchronous
    code of the request has finished. *)
Definition finalhandler (r : reply) : M unit :=
  fun s =>
    match final s with
    | Some _ => (Ok tt, s)
    | None => (Ok tt, set_final (Some r) s)
    end.

(** The later turn: the final handler writes its answer unless the response
    has been sent already. *)
Definition flush : M unit :=
  fun s =>
    match res s, final s with
    | None, Some r => (Ok tt, emit (Replied r) (set_res (Some r) s))
    | _, _ => (Ok tt, s)
    end.

(** [res.send(body)] with the status code left at its default. *)
Definition res_send (body : json) : M unit := finish (Sent 200 body).

(** ** lib/index.ts: the limiter's behaviour *)

(** Modelled from the spec: [rateLimit] belongs to the express-rate-limit
    package, whose code is not in the repository.  Section 4.3: look the
    client key up; if there is no entry or its window has expired, start a
    fresh entry with count 1 and a new window start; otherwise increment. *)
Definition record_hit (opts : RateLimitOptions) (key : string) (now : Z)
    (store : gmap string entry) : entry :=
  match store !! key with
  | Some e =>
      if now <? windowStart e + windowMs opts
      then {| count := count e + 1; windowStart := windowStart e |}
      else {| count := 1; windowStart := now |}
  | None => {| count := 1; windowStart := now |}
  end.

(** What the limiter does with a request. *)
Inductive verdict :=
| Forwarded
| Rejected (r : reply).

(** Modelled from the spec: the request is rejected when the count after the
    increment exceeds the limit; the rejection is a terminal response
    carrying the configured [message] (the package answers with status
    429). *)
Definition rateLimit_decide (opts : RateLimitOptions) (key : string)
    (now : Z) (store : gmap string entry) : verdict * gmap string entry :=
  let e := record_hit opts key now store in
  (if limit opts <? count e
   then Rejected (Sent 429 (message opts))
   else Forwarded,
   <[key := e]> store).

(** Modelled from the spec: a rejected request is answered at once and is
    not forwarded; an accepted request goes to [next]. *)
Definition rateLimit_handle (opts : RateLimitOptions) (req : request)
    (next : M unit) : M unit :=
  fun s =>
    let '(v, store) :=
      rateLimit_decide opts (ip req) (arrival req) (hits s) in
    match v with
    | Rejected r => finish r (set_hits store s)
    | Forwarded => next (set_hits store s)
    end.

(** ** server.ts: CORS options *)

Definition cors_message (origin : option string) : string :=
  "CORS Error: " +:+ render origin +:+ " is not allowed by CORS".

Record CorsOptions := {
  origin : option string -> (option js_error -> bool -> M unit) -> M unit;
}.

Definition corOptions (w : World) (cfg : Config) : CorsOptions :=
  {| origin := fun origin callback =>
       if strict_eq (NODE_ENV cfg) "development"
          || negb (truthy origin)
          || includes (WHITELIST_ORIGINS cfg) origin
       then callback None true
       else
         callback (Some (Error (cors_message origin))) false ;;
         console_log w [LStr (cors_message origin)]
  |}.

(** Modelled from the spec: [cors] belongs to the cors package.  It calls
    the [origin] option with the request's Origin header; an error passed
    to the callback fails the request at the middleware layer (section 6):
    it is handed to [next], no layer handles errors, and the final handler
    answers in a later turn.  A refusal without error passes the request on
    without CORS headers, and for an allowed origin the package goes on by
    its own rules. *)
Definition cors (w : World) (opts : CorsOptions) (req : request)
    (next : M unit) : M unit :=
  origin opts (origin_header req)
    (fun err allow =>
       match err with
       | Some e => finalhandler (Errored e)
       | None =>
           if allow
           then match third_party w cors_corOptions req with
                | Next => next
                | Respond r => finish r
                | Fail e => finalhandler (Errored e)
                end
           else next
       end).

(** ** routes/index.ts *)

Definition health_body : json :=
  JObject [("status", JBool true); ("message", JString "MindSync is OK!")].

(** [(req, res) => res.send({ status: true, message: 'MindSync is OK!' })] *)
Definition health_handler (req : request) : M unit :=
  res_send health_body.

Definition mindSyncRoute (w : World) : M unit :=
  app_use w "/health" health ;;
  app_use w "/api/v1" AuthRoute.

(** ** Dispatch of a request through the layer stack *)

(** Lower case of the ASCII letters, as Express compares paths. *)
Definition lower_ascii (c : Ascii.ascii) : Ascii.ascii :=
  let n := Ascii.N_of_ascii c in
  if ((65 <=? n) && (n <=? 90))%N then Ascii.ascii_of_N (n + 32) else c.

Fixpoint lower (s : string) : string :=
  match s with
  | EmptyString => EmptyString
  | String c rest => String (lower_ascii c) (lower rest)
  end.

(** Modelled from Express: a layer mounted with [app.use(path, fn)] sees
    every method, and every path that is [path] itself or lies under it,
    letter case not counting (routing is case-insensitive by default);
    [app.use(fn)] mounts at the root. *)
Definition mount_matches (mnt p : string) : bool :=
  String.eqb mnt "/"
  || String.eqb (lower p) (lower mnt)
  || String.prefix (lower mnt +:+ "/") (lower p).

Definition run_middleware (w : World) (cfg : Config) (mw : middleware)
    (req : request) (next : M unit) : M unit :=
  match mw with
  | cors_corOptions => cors w (corOptions w cfg) req next
  | rateLimit opts => rateLimit_handle opts req next
  | health => health_handler req
  | _ =>
      match third_party w mw req with
      | Next => next
      | Respond r => finish r
      | Fail e => finalhandler (Errored e)
      end
  end.

(** Modelled from Express: the layers run in [app.use] order, each one
    reaching the following ones through [next]; what a layer throws goes to
    the final handler as an error; a request no layer answers goes to the
    final handler as "not found". *)
Fixpoint dispatch (w : World) (cfg : Config) (layers : list layer)
    (req : request) : M unit :=
  match layers with
  | [] => finalhandler NotFound
  | l :: rest =>
      if mount_matches (mount l) (path req)
      then try_catch
             (run_middleware w cfg (handle l) req (dispatch w cfg rest req))
             (fun e => finalhandler (Errored e))
      else dispatch w cfg rest req
  end.

(** One request against the running server: the layers run, then the final
    handler's turn comes; the result is how the request ended. *)
Definition handle_request (w : World) (cfg : Config) (req : request)
    : M (option reply) :=
  fun s =>
    match (dispatch w cfg (stack s) req ;; flush)
            (set_final None (set_res None s)) with
    | (Ok _, s') => (Ok (res s'), s')
    | (Throw e, s') => (Throw e, s')
    | (Exit c, s') => (Exit c, s')
    end.

(** ** server.ts: the middleware chain *)

Definition apply_middleware (w : World) : M unit :=
  app_use w "/" cors_corOptions ;;
  app_use w "/" express_json ;;
  app_use w "/" (express_urlencoded true) ;;
  app_use w "/" cookieParser ;;
  app_use w "/" (compression 1024) ;;
  app_use w "/" helmet ;;
  app_use w "/" limiter.

(** ** server.ts: start-up *)

(** The body of the [try] block of the start-up function. *)
Definition start_body (w : World) (cfg : Config) : M unit :=
  mindSyncRoute w ;;
  app_listen w (PORT cfg)
    (console_log w
       [LStr ("Server is running on port " +:+ port_to_string (PORT cfg))]).

(** The immediately invoked start-up function, without its [async]. *)
Definition start (w : World) (cfg : Config) : M unit :=
  try_catch (start_body w cfg)
    (fun error =>
       console_log w [LStr "Failed to start the server"; LErr error] ;;
       if strict_eq (NODE_ENV cfg) "production"
       then process_exit 1
       else mret tt).

(** ** server.ts: shutdown *)

Definition handleServerShutdown (w : World) : M unit :=
  try_catch
    (console_log w [LStr "Server SHUTDOWN"] ;;
     process_exit 0)
    (fun error =>
       console_log w [LStr "Error during server shutdown"; LErr error]).

Definition run_listener (w : World) (f : listener) : M unit :=
  match f with
  | handleServerShutdown_fn => async (handleServerShutdown w)
  end.

(** The whole of server.ts, in evaluation order. *)
Definition server (w : World) (cfg : Config) : M unit :=
  apply_middleware w ;;
  async (start w cfg) ;;
  process_on "SIGTERM" handleServerShutdown_fn ;;
  process_on "SIGINT" handleServerShutdown_fn.

(** The functions registered for a signal run in registration order. *)
Fixpoint run_listeners (w : World) (sig : string)
    (ls : list (string * listener)) : M unit :=
  match ls with
  | [] => mret tt
  | (sig', f) :: rest =>
      if String.eqb sig' sig
      then run_listener w f ;; run_listeners w sig rest
      else run_listeners w sig rest
  end.

(** The first turn of the process: server.ts is evaluated to its end. *)
Definition main (w : World) (cfg : Config) : M unit :=
  turn (server w cfg).

Definition has_listener (sig : string) (ls : list (string * listener))
    : bool :=
  existsb (fun l => String.eqb (fst l) sig) ls.

(** A signal arrives.  With a function registered for it, the default
    action is off and the registered functions run in one turn; a signal
    nobody listens for has its default action, which for the fatal signals
    ends the process with status 128 plus the signal number. *)
Definition deliver (w : World) (sig : string) : M unit :=
  fun s =>
    if has_listener sig (listeners s)
    then turn (run_listeners w sig (listeners s)) s
    else match fatal_signal w sig with
         | Some n => (Exit (128 + n), s)
         | None => (Ok tt, s)
         end.

(** ** Vocabulary of the statements *)

(** The local origin that is always on the allow-list. *)
Definition local_origin : string := "http://localhost:5173".

(** The origins the CORS evaluator lets through, read off the spec's
    decision rule with "absent" widened to "absent or empty". *)
Definition origin_allowed (cfg : Config) (o : option string) : Prop :=
  NODE_ENV cfg = Some "development"
  \/ o = None
  \/ o = Some ""
  \/ exists x, o = Some x /\ In x (WHITELIST_ORIGINS cfg).

(** The decision rule as the spec words it. *)
Definition origin_allowed_as_specified (cfg : Config) (o : option string)
    : Prop :=
  NODE_ENV cfg = Some "development"
  \/ o = None
  \/ exists x, o = Some x /\ In x (WHITELIST_ORIGINS cfg).

(** The origins the CORS evaluator turns away. *)
Definition origin_denied (cfg : Config) (o : option string) : Prop :=
  NODE_ENV cfg <> Some "development"
  /\ exists x, o = Some x /\ x <> "" /\ ~ In x (WHITELIST_ORIGINS cfg).

(** A production configuration with no custom origin. *)
Definition production : Config := config {["NODE_ENV" := "production"]}.

(** A development configuration with no custom origin. *)
Definition development : Config := config {["NODE_ENV" := "development"]}.

(** A world whose console fails on the shutdown message. *)
Definition broken_console : World :=
  {| log_fault := fun args =>
       match args with
       | [LStr m] =>
           if String.eqb m "Server SHUTDOWN"
           then Some (Error "write EPIPE")
           else None
       | _ => None
       end;
     use_fault := fun _ _ => None;
     listen_fault := fun _ => None;
     bind_fault := fun _ => None;
     fatal_signal := posix_fatal;
     third_party := fun _ _ => Next |}.

(** A world whose console fails on the shutdown message and on the report
    of that failure. *)
Definition broken_console_twice : World :=
  {| log_fault := fun args =>
       match args with
       | LStr m :: _ =>
           if String.eqb m "Server SHUTDOWN"
              || String.eqb m "Error during server shutdown"
           then Some (Error "write EPIPE")
           else None
       | _ => None
       end;
     use_fault := fun _ _ => None;
     listen_fault := fun _ => None;
     bind_fault := fun _ => None;
     fatal_signal := posix_fatal;
     third_party := fun _ _ => Next |}.

(** A world whose console fails on the report of a start-up failure, and in
    which [app.listen] rejects the port. *)
Definition bad_port_broken_console : World :=
  {| log_fault := fun args =>
       match args with
       | LStr m :: _ =>
           if String.eqb m "Failed to start the server"
           then Some (Error "write EPIPE")
           else None
       | _ => None
       end;
     use_fault := fun _ _ => None;
     listen_fault := fun _ => Some (Error "ERR_SOCKET_BAD_PORT");
     bind_fault := fun _ => None;
     fatal_signal := posix_fatal;
     third_party := fun _ _ => Next |}.

(** A world in which [app.listen] rejects the port. *)
Definition bad_port : World :=
  {| log_fault := fun _ => None;
     use_fault := fun _ _ => None;
     listen_fault := fun _ => Some (Error "ERR_SOCKET_BAD_PORT");
     bind_fault := fun _ => None;
     fatal_signal := posix_fatal;
     third_party := fun _ _ => Next |}.

(** A world in which the port is taken: [app.listen] returns, and the bind
    fails afterwards. *)
Definition port_in_use : World :=
  {| log_fault := fun _ => None;
     use_fault := fun _ _ => None;
     listen_fault := fun _ => None;
     bind_fault := fun _ =>
       Some (Error "listen EADDRINUSE: address already in use");
     fatal_signal := posix_fatal;
     third_party := fun _ _ => Next |}.

(** A world in which mounting the imported router fails. *)
Definition broken_router : World :=
  {| log_fault := fun _ => None;
     use_fault := fun _ mw =>
       match mw with
       | AuthRoute => Some (Error "Router.use() requires a middleware function")
       | _ => None
       end;
     listen_fault := fun _ => None;
     bind_fault := fun _ => None;
     fatal_signal := posix_fatal;
     third_party := fun _ _ => Next |}.

(** The middleware chain and the routes, in the documented order. *)
Definition documented_chain : list layer :=
  [ {| mount := "/"; handle := cors_corOptions |};
    {| mount := "/"; handle := express_json |};
    {| mount := "/"; handle := express_urlencoded true |};
    {| mount := "/"; handle := cookieParser |};
    {| mount := "/"; handle := compression 1024 |};
    {| mount := "/"; handle := helmet |};
    {| mount := "/"; handle := limiter |} ].

Definition documented_routes : list layer :=
  [ {| mount := "/health"; handle := health |};
    {| mount := "/api/v1"; handle := AuthRoute |} ].

(** The limiter alone, fed requests one after the other: the verdict on
    each. *)
Fixpoint limiter_run (opts : RateLimitOptions) (reqs : list request)
    (store : gmap string entry) : list verdict :=
  match reqs with
  | [] => []
  | r :: rest =>
      let '(v, store') :=
        rateLimit_decide opts (ip r) (arrival r) store in
      v :: limiter_run opts rest store'
  end.



(** Requests served one after the other by the running server. *)
Fixpoint serve_all (w : World) (cfg : Config) (reqs : list request)
    : M (list (option reply)) :=
  match reqs with
  | [] => mret []
  | r :: rest =>
      o ← handle_request w cfg r;
      os ← serve_all w cfg rest;
      mret (o :: os)
  end.

(** A plain request: no Origin header, client 203.0.113.7, at time [t]. *)
Definition plain (m p : string) (t : Z) : request :=
  {| method := m; path := p; origin_header := None; ip := "203.0.113.7";
     arrival := t |}.

(** A cross-origin request from a page of http://evil.example. *)
Definition cross_origin (m p : string) : request :=
  {| method := m; path := p; origin_header := Some "http://evil.example";
     ip := "203.0.113.7"; arrival := 0 |}.

(** [p] is the mount path or lies under it. *)
Definition under (mnt p : string) : Prop :=
  p = mnt \/ exists rest, p = mnt +:+ "/" +:+ rest.

(** The library stages of the chain hand the request on. *)
Definition libraries_pass (w : World) (req : request) : Prop :=
  third_party w cors_corOptions req = Next
  /\ third_party w express_json req = Next
  /\ third_party w (express_urlencoded true) req = Next
  /\ third_party w cookieParser req = Next
  /\ third_party w (compression 1024) req = Next
  /\ third_party w helmet req = Next.

(** The request gets through the whole middleware chain: the CORS evaluator
    allows its origin, the library stages hand it on, and the limiter
    forwards it. *)
Definition passes_chain (w : World) (cfg : Config) (s : process)
    (req : request) : Prop :=
  origin_allowed cfg (origin_header req)
  /\ libraries_pass w req
  /\ fst (rateLimit_decide limiter_options (ip req) (arrival req) (hits s))
     = Forwarded.

(** What the two routes answer to a request that reaches them: the health
    payload under /health, the imported router's answer under /api/v1, and
    "not found" elsewhere or when the router passes the request on. *)
Definition route_reply (w : World) (req : request) : reply :=
  if mount_matches "/health" (path req)
  then Sent 200 health_body
  else if mount_matches "/api/v1" (path req)
       then match third_party w AuthRoute req with
            | Next => NotFound
            | Respond r => r
            | Fail e => Errored e
            end
       else NotFound.

(** A computation that leaves the signal listeners as they are. *)
Definition keeps_listeners {A} (m : M A) : Prop :=
  forall s r s', m s = (r, s') -> listeners s' = listeners s.

(** * Part II: properties *)

(** ** Truthiness and membership *)

Lemma truthy_true_iff (v : option string) :
  truthy v = true <-> exists s, v = Some s /\ s <> "".
Proof.
  destruct v as [s|]; simpl.
  - rewrite negb_true_iff, String.eqb_neq.
    split.
    + intros H. exists s. split; [reflexivity | exact H].
    + intros (x & [= <-] & H). exact H.
  - split; [discriminate | intros (x & Hx & _); discriminate].
Qed.

Lemma truthy_false_iff (v : option string) :
  truthy v = false <-> v = None \/ v = Some "".
Proof.
  destruct v as [s|]; simpl.
  - rewrite negb_false_iff, String.eqb_eq.
    split.
    + intros ->. right. reflexivity.
    + intros [H | [= ->]]; [discriminate | reflexivity].
  - split; [intros _; left; reflexivity | reflexivity].
Qed.

Lemma strict_eq_iff (v : option string) (lit : string) :
  strict_eq v lit = true <-> v = Some lit.
Proof.
  destruct v as [s|]; simpl.
  - rewrite String.eqb_eq. split; [intros -> | intros [= ->]]; reflexivity.
  - split; discriminate.
Qed.

Lemma includes_iff (xs : list string) (v : option string) :
  includes xs v = true <-> exists x, v = Some x /\ In x xs.
Proof.
  destruct v as [s|]; simpl.
  - rewrite existsb_exists. split.
    + intros (x & Hin & Heq). apply String.eqb_eq in Heq. subst x.
      exists s. split; [reflexivity | exact Hin].
    + intros (x & [= <-] & Hin). exists s.
      split; [exact Hin | apply String.eqb_refl].
  - split; [discriminate | intros (x & Hx & _); discriminate].
Qed.

(** ** Configuration loader *)

Example config_unset :
  WHITELIST_ORIGINS (config ∅) = [local_origin]
  /\ PORT (config ∅) = PortNumber 3000
  /\ NODE_ENV (config ∅) = None.
Proof. repeat split. Qed.

Example config_custom :
  WHITELIST_ORIGINS (config {["NODE_ORIGIN" := "https://mindsync.app"]})
  = [local_origin; "https://mindsync.app"].
Proof. reflexivity. Qed.

Lemma whitelist_cases (env : gmap string string) :
  WHITELIST_ORIGINS (config env) =
  match env !! "NODE_ORIGIN" with
  | Some o => if String.eqb o "" then [local_origin] else [local_origin; o]
  | None => [local_origin]
  end.
Proof.
  unfold config; simpl.
  destruct (env !! "NODE_ORIGIN") as [o|]; simpl; [|reflexivity].
  destruct (String.eqb o ""); reflexivity.
Qed.

(** C7, as stated, fails: a custom origin variable that is present but
    empty does not give the two-element list. *)
Lemma whitelist_present_counterexample :
  ~ (forall (env : gmap string string) (o : string),
        env !! "NODE_ORIGIN" = Some o ->
        WHITELIST_ORIGINS (config env) = [local_origin; o]).
Proof.
  intros H.
  specialize (H {["NODE_ORIGIN" := ""]} "" eq_refl).
  discriminate H.
Qed.

(** C7 (amended): when the custom origin variable is present and not empty,
    the allowed origins are the local default followed by the custom origin;
    when it is absent they are the local default alone.  [config] is a total
    function: no environment makes it fail. *)
Theorem whitelist_origins_spec (env : gmap string string) :
  (forall o, env !! "NODE_ORIGIN" = Some o -> o <> "" ->
     WHITELIST_ORIGINS (config env) = [local_origin; o])
  /\ (env !! "NODE_ORIGIN" = None ->
      WHITELIST_ORIGINS (config env) = [local_origin]).
Proof.
  rewrite whitelist_cases. split.
  - intros o -> Hne. apply String.eqb_neq in Hne. rewrite Hne. reflexivity.
  - intros ->. reflexivity.
Qed.

Lemma whitelist_origins_spec_witness :
  WHITELIST_ORIGINS (config {["NODE_ORIGIN" := "https://mindsync.app"]})
  = [local_origin; "https://mindsync.app"]
  /\ WHITELIST_ORIGINS (config {["PORT" := "8080"]}) = [local_origin].
Proof.
  split.
  - apply (proj1 (whitelist_origins_spec
                    {["NODE_ORIGIN" := "https://mindsync.app"]})).
    + reflexivity.
    + discriminate.
  - apply (proj2 (whitelist_origins_spec {["PORT" := "8080"]})).
    reflexivity.
Defined.

(** C10: the custom origin variable is tested for truthiness.  Set to the
    empty string it yields the local default alone, and the whole
    configuration equals the one read when the variable is unset. *)
Theorem empty_origin_same_as_unset (env : gmap string string) :
  WHITELIST_ORIGINS (config (<["NODE_ORIGIN" := ""]> env)) = [local_origin]
  /\ config (<["NODE_ORIGIN" := ""]> env) = config (delete "NODE_ORIGIN" env).
Proof.
  split.
  - rewrite whitelist_cases, lookup_insert_eq. reflexivity.
  - unfold config.
    rewrite lookup_insert_eq, lookup_delete_eq.
    rewrite !lookup_insert_ne, !lookup_delete_ne by discriminate.
    reflexivity.
Qed.

(** ** CORS policy evaluator *)

Lemma cors_condition_true_iff (cfg : Config) (o : option string) :
  strict_eq (NODE_ENV cfg) "development"
  || negb (truthy o)
  || includes (WHITELIST_ORIGINS cfg) o = true
  <-> origin_allowed cfg o.
Proof.
  rewrite !orb_true_iff, negb_true_iff, strict_eq_iff, truthy_false_iff,
    includes_iff.
  unfold origin_allowed. tauto.
Qed.

Lemma origin_denied_iff (cfg : Config) (o : option string) :
  origin_denied cfg o <-> ~ origin_allowed cfg o.
Proof.
  unfold origin_denied, origin_allowed. split.
  - intros (Hdev & x & -> & Hne & Hnotin) [H | [H | [H | (y & [= <-] & H)]]].
    + exact (Hdev H).
    + discriminate H.
    + injection H as ->. exact (Hne eq_refl).
    + exact (Hnotin H).
  - intros H. split.
    + intros Hdev. apply H. left. exact Hdev.
    + destruct o as [x|].
      * exists x. split; [reflexivity|]. split.
        -- intros ->. apply H. right. right. left. reflexivity.
        -- intros Hin. apply H. right. right. right. exists x.
           split; [reflexivity | exact Hin].
      * exfalso. apply H. right. left. reflexivity.
Qed.

Lemma cors_condition_false_iff (cfg : Config) (o : option string) :
  strict_eq (NODE_ENV cfg) "development"
  || negb (truthy o)
  || includes (WHITELIST_ORIGINS cfg) o = false
  <-> origin_denied cfg o.
Proof.
  rewrite origin_denied_iff, <- cors_condition_true_iff.
  destruct (strict_eq (NODE_ENV cfg) "development" || negb (truthy o)
            || includes (WHITELIST_ORIGINS cfg) o);
    split; try congruence; intros H; exfalso; apply H; reflexivity.
Qed.

Lemma origin_allow (w : World) (cfg : Config) (o : option string)
    (cb : option js_error -> bool -> M unit) :
  origin_allowed cfg o ->
  origin (corOptions w cfg) o cb = cb None true.
Proof.
  intros H. apply cors_condition_true_iff in H.
  unfold corOptions; simpl. rewrite H. reflexivity.
Qed.

Lemma origin_deny (w : World) (cfg : Config) (o : option string)
    (cb : option js_error -> bool -> M unit) :
  origin_denied cfg o ->
  origin (corOptions w cfg) o cb =
  (cb (Some (Error (cors_message o))) false ;;
   console_log w [LStr (cors_message o)]).
Proof.
  intros H. apply cors_condition_false_iff in H.
  unfold corOptions; simpl. rewrite H. reflexivity.
Qed.

Example cors_local_origin_allowed (w : World)
    (cb : option js_error -> bool -> M unit) :
  origin (corOptions w production) (Some local_origin) cb = cb None true.
Proof. reflexivity. Qed.

Example cors_evil_origin_denied (w : World)
    (cb : option js_error -> bool -> M unit) :
  origin (corOptions w production) (Some "http://evil.example") cb =
  (cb (Some (Error "CORS Error: http://evil.example is not allowed by CORS"))
      false ;;
   console_log w
     [LStr "CORS Error: http://evil.example is not allowed by CORS"]).
Proof. reflexivity. Qed.

(** C2, as stated, fails: outside development, an Origin header that is
    present but empty is allowed although it is on no list. *)
Lemma cors_empty_origin_counterexample :
  (forall (w : World) (cb : option js_error -> bool -> M unit),
      origin (corOptions w production) (Some "") cb = cb None true)
  /\ ~ origin_allowed_as_specified production (Some "").
Proof.
  split.
  - intros w cb. reflexivity.
  - intros [H | [H | (x & [= <-] & [H | []])]]; discriminate H.
Qed.

(** C2 (amended): the CORS evaluator allows the request, calling back with
    no error and [true], when the environment is development, or the origin
    is absent or the empty string, or the origin is on the allowed-origins
    list; in every other case it denies, calling back with [false] and an
    error whose message names the rejected origin. *)
Theorem cors_origin_decision (w : World) (cfg : Config) (o : option string)
    (cb : option js_error -> bool -> M unit) :
  (origin_allowed cfg o ->
     origin (corOptions w cfg) o cb = cb None true)
  /\ (~ origin_allowed cfg o ->
      exists x,
        o = Some x
        /\ origin (corOptions w cfg) o cb =
           (cb (Some (Error ("CORS Error: " +:+ x
                             +:+ " is not allowed by CORS"))) false ;;
            console_log w
              [LStr ("CORS Error: " +:+ x +:+ " is not allowed by CORS")])).
Proof.
  split.
  - apply origin_allow.
  - intros H. apply origin_denied_iff in H.
    pose proof H as (_ & x & -> & _ & _).
    exists x. split; [reflexivity|].
    apply (origin_deny w cfg (Some x) cb H).
Qed.

Lemma cors_origin_decision_witness :
  (forall cb, origin (corOptions calm production) None cb = cb None true)
  /\ (exists x,
        Some "http://evil.example" = Some x
        /\ origin (corOptions calm production) (Some "http://evil.example")
             (fun _ _ => mret tt) =
           ((fun _ _ => mret tt)
              (Some (Error ("CORS Error: " +:+ x
                            +:+ " is not allowed by CORS"))) false ;;
            console_log calm
              [LStr ("CORS Error: " +:+ x +:+ " is not allowed by CORS")])).
Proof.
  split.
  - intros cb.
    apply (proj1 (cors_origin_decision calm production None cb)).
    right. left. reflexivity.
  - apply (proj2 (cors_origin_decision calm production
                    (Some "http://evil.example") (fun _ _ => mret tt))).
    intros [H | [H | [H | (x & [= <-] & [H | []])]]]; discriminate H.
Defined.

(** When the callback does not return normally, nothing is logged. *)
Lemma cors_denial_no_log_without_decision (w : World) (cfg : Config)
    (o : option string) (cb : option js_error -> bool -> M unit)
    (s : process) :
  origin_denied cfg o ->
  (forall u s1, cb (Some (Error (cors_message o))) false s <> (Ok u, s1)) ->
  origin (corOptions w cfg) o cb s =
  cb (Some (Error (cors_message o))) false s.
Proof.
  intros Hden Hcb. rewrite (origin_deny w cfg o cb Hden).
  unfold mbind, M_bind.
  destruct (cb (Some (Error (cors_message o))) false s) as [[u|e|c] s2];
    [exfalso; exact (Hcb u s2 eq_refl) | reflexivity | reflexivity].
Qed.

(** C6: on a CORS denial the decision is communicated first and the
    diagnostic is logged second: the log line is appended to the trace of
    the state in which the callback, called with the error and [false],
    returned. *)
Theorem cors_denial_decision_before_log (w : World) (cfg : Config)
    (o : option string) (cb : option js_error -> bool -> M unit)
    (s s1 : process) :
  origin_denied cfg o ->
  cb (Some (Error (cors_message o))) false s = (Ok tt, s1) ->
  log_fault w [LStr (cors_message o)] = None ->
  origin (corOptions w cfg) o cb s
  = (Ok tt, emit (Logged [LStr (cors_message o)]) s1)
  /\ trace (emit (Logged [LStr (cors_message o)]) s1)
     = (trace s1 ++ [Logged [LStr (cors_message o)]])%list.
Proof.
  intros Hden Hcb Hlog. split; [|reflexivity].
  rewrite (origin_deny w cfg o cb Hden).
  unfold mbind, M_bind. rewrite Hcb.
  unfold console_log. rewrite Hlog. reflexivity.
Qed.

Lemma cors_denial_decision_before_log_witness :
  let o := Some "http://evil.example" in
  let cb := fun err (_ : bool) =>
              match err with
              | Some e => finish (Errored e)
              | None => mret tt
              end in
  snd (origin (corOptions calm production) o cb boot)
  = emit (Logged [LStr (cors_message o)])
      (snd (cb (Some (Error (cors_message o))) false boot))
  /\ trace (snd (origin (corOptions calm production) o cb boot))
     = [Replied (Errored (Error (cors_message o)));
        Logged [LStr (cors_message o)]].
Proof.
  intros o cb.
  destruct (cors_denial_decision_before_log calm production o cb boot
              (snd (cb (Some (Error (cors_message o))) false boot)))
    as [Hrun Htrace].
  - split; [discriminate|].
    exists "http://evil.example". split; [reflexivity|].
    split; [discriminate|].
    intros [H | []]. discriminate H.
  - reflexivity.
  - reflexivity.
  - rewrite Hrun. split; reflexivity.
Defined.

(** ** The effect monad *)

Lemma bind_ok {A B} (m : M A) (f : A -> M B) (s s1 : process) (a : A) :
  m s = (Ok a, s1) -> (m ≫= f) s = f a s1.
Proof. intros H. unfold mbind, M_bind. rewrite H. reflexivity. Qed.

Lemma bind_throw {A B} (m : M A) (f : A -> M B) (s s1 : process)
    (e : js_error) :
  m s = (Throw e, s1) -> (m ≫= f) s = (Throw e, s1).
Proof. intros H. unfold mbind, M_bind. rewrite H. reflexivity. Qed.

Lemma bind_exit {A B} (m : M A) (f : A -> M B) (s s1 : process) (c : Z) :
  m s = (Exit c, s1) -> (m ≫= f) s = (Exit c, s1).
Proof. intros H. unfold mbind, M_bind. rewrite H. reflexivity. Qed.

Lemma try_catch_throw {A} (m : M A) (h : js_error -> M A) (s s1 : process)
    (e : js_error) :
  m s = (Throw e, s1) -> try_catch m h s = h e s1.
Proof. intros H. unfold try_catch. rewrite H. reflexivity. Qed.

Lemma async_not_throw (m : M unit) (s : process) (r : outcome unit)
    (s1 : process) :
  m s = (r, s1) -> (forall e, r <> Throw e) -> async m s = (r, s1).
Proof.
  intros H Hr. unfold async. rewrite H.
  destruct r as [u|e|c]; [reflexivity | exfalso; exact (Hr e eq_refl) |
                          reflexivity].
Qed.

Lemma turn_exit (m : M unit) (s s1 : process) (c : Z) :
  m s = (Exit c, s1) -> turn m s = (Exit c, s1).
Proof. intros H. unfold turn. rewrite H. reflexivity. Qed.

Lemma turn_quiet (m : M unit) (s s1 : process) (u : unit) :
  m s = (Ok u, s1) -> uncaught s1 = uncaught s -> turn m s = (Ok u, s1).
Proof.
  intros H Hsame. unfold turn. rewrite H, Hsame, Nat.ltb_irrefl.
  reflexivity.
Qed.

Lemma turn_rejection (m : M unit) (s s1 : process) (u : unit)
    (e : js_error) :
  m s = (Ok u, s1) -> uncaught s1 = (uncaught s ++ [e])%list ->
  turn m s = (Exit 1, s1).
Proof.
  intros H Hmore. unfold turn. rewrite H, Hmore, length_app. simpl.
  destruct (Nat.ltb_spec (length (uncaught s)) (length (uncaught s) + 1));
    [reflexivity | lia].
Qed.

(** ** Signal listeners are only touched by [process.on] *)

Create HintDb frame.

Lemma keeps_ret {A} (a : A) : keeps_listeners (mret a : M A).
Proof. intros s r s' [= <- <-]. reflexivity. Qed.

Lemma keeps_bind {A B} (m : M A) (f : A -> M B) :
  keeps_listeners m -> (forall a, keeps_listeners (f a)) ->
  keeps_listeners (m ≫= f).
Proof.
  intros Hm Hf s r s'. unfold mbind, M_bind.
  destruct (m s) as [[a|e|c] s1] eqn:E; intros H.
  - rewrite (Hf a _ _ _ H). exact (Hm _ _ _ E).
  - injection H as <- <-. exact (Hm _ _ _ E).
  - injection H as <- <-. exact (Hm _ _ _ E).
Qed.

Lemma keeps_try_catch {A} (m : M A) (h : js_error -> M A) :
  keeps_listeners m -> (forall e, keeps_listeners (h e)) ->
  keeps_listeners (try_catch m h).
Proof.
  intros Hm Hh s r s'. unfold try_catch.
  destruct (m s) as [[a|e|c] s1] eqn:E; intros H.
  - injection H as <- <-. exact (Hm _ _ _ E).
  - rewrite (Hh e _ _ _ H). exact (Hm _ _ _ E).
  - injection H as <- <-. exact (Hm _ _ _ E).
Qed.

Lemma keeps_async (m : M unit) :
  keeps_listeners m -> keeps_listeners (async m).
Proof.
  intros Hm s r s'. unfold async.
  destruct (m s) as [[a|e|c] s1] eqn:E; intros [= <- <-];
    exact (Hm _ _ _ E).
Qed.

Lemma keeps_console_log (w : World) (args : list log_arg) :
  keeps_listeners (console_log w args).
Proof.
  intros s r s'. unfold console_log.
  destruct (log_fault w args); intros [= <- <-]; reflexivity.
Qed.

Lemma keeps_app_use (w : World) (p : string) (mw : middleware) :
  keeps_listeners (app_use w p mw).
Proof.
  intros s r s'. unfold app_use.
  destruct (use_fault w p mw); intros [= <- <-]; reflexivity.
Qed.

Lemma keeps_app_listen (w : World) (p : port) (cb : M unit) :
  keeps_listeners cb -> keeps_listeners (app_listen w p cb).
Proof.
  intros Hcb s r s'. unfold app_listen.
  destruct (listen_fault w p).
  - intros [= <- <-]. reflexivity.
  - destruct (bind_fault w p); intros H;
      apply (keeps_async cb Hcb) in H; exact H.
Qed.

Lemma keeps_process_exit {A} (c : Z) :
  keeps_listeners (process_exit c : M A).
Proof. intros s r s' [= <- <-]. reflexivity. Qed.

#[local] Hint Resolve keeps_ret keeps_console_log keeps_app_use
  keeps_process_exit : frame.
#[local] Hint Extern 2 (keeps_listeners (_ ≫= _)) =>
  apply keeps_bind; [|intros ?] : frame.
#[local] Hint Extern 2 (keeps_listeners (try_catch _ _)) =>
  apply keeps_try_catch; [|intros ?] : frame.
#[local] Hint Extern 2 (keeps_listeners (async _)) =>
  apply keeps_async : frame.
#[local] Hint Extern 2 (keeps_listeners (app_listen _ _ _)) =>
  apply keeps_app_listen : frame.

Lemma keeps_apply_middleware (w : World) :
  keeps_listeners (apply_middleware w).
Proof. unfold apply_middleware. auto 20 with frame. Qed.

Lemma keeps_start (w : World) (cfg : Config) :
  keeps_listeners (start w cfg).
Proof.
  unfold start, start_body, mindSyncRoute.
  apply keeps_try_catch; [auto 20 with frame|].
  intros e. apply keeps_bind; [auto with frame|].
  intros _. destruct (strict_eq (NODE_ENV cfg) "production");
    auto with frame.
Qed.

(** Once server.ts has been evaluated, exactly the shutdown handler is
    registered, for the two termination signals. *)
Lemma server_listeners (w : World) (cfg : Config) (s0 : process) :
  server w cfg boot = (Ok tt, s0) ->
  listeners s0 = [("SIGTERM", handleServerShutdown_fn);
                  ("SIGINT", handleServerShutdown_fn)].
Proof.
  unfold server, mbind, M_bind.
  destruct (apply_middleware w boot) as [[[]|e|c] s1] eqn:E1;
    [|discriminate..].
  destruct (async (start w cfg) s1) as [[[]|e|c] s2] eqn:E2;
    [|discriminate..].
  unfold process_on. intros [= <-]. simpl.
  apply keeps_apply_middleware in E1.
  apply (keeps_async _ (keeps_start w cfg)) in E2.
  rewrite E2, E1. reflexivity.
Qed.

(** ** Lifecycle controller: shutdown *)

Lemma handleServerShutdown_exits (w : World) (s : process) :
  log_fault w [LStr "Server SHUTDOWN"] = None ->
  handleServerShutdown w s
  = (Exit 0, emit (Logged [LStr "Server SHUTDOWN"]) s).
Proof.
  intros Hlog.
  unfold handleServerShutdown, try_catch, mbind, M_bind, console_log.
  rewrite Hlog. reflexivity.
Qed.

(** A throw in the [try] block reaches the [catch], which logs and returns:
    [process.exit(0)] is the last statement of the block and is skipped. *)
Lemma handleServerShutdown_throw (w : World) (s : process) (e : js_error) :
  log_fault w [LStr "Server SHUTDOWN"] = Some e ->
  handleServerShutdown w s
  = console_log w [LStr "Error during server shutdown"; LErr e] s.
Proof.
  intros Hlog.
  unfold handleServerShutdown, try_catch, mbind, M_bind.
  unfold console_log at 1. rewrite Hlog. reflexivity.
Qed.

Example shutdown_on_sigint :
  let s0 := snd (server calm production boot) in
  listening s0 = Some (PortNumber 3000)
  /\ fst (deliver calm "SIGINT" s0) = Exit 0
  /\ trace (snd (deliver calm "SIGINT" s0))
     = [Logged [LStr "Server is running on port 3000"];
        Logged [LStr "Server SHUTDOWN"]].
Proof. repeat split; vm_compute; reflexivity. Qed.

Example sighup_default_action :
  let s0 := snd (server calm production boot) in
  deliver calm "SIGHUP" s0 = (Exit 129, s0).
Proof. vm_compute. reflexivity. Qed.


Lemma deliver_handled (w : World) (cfg : Config) (sig : string)
    (s0 s : process) :
  sig = "SIGTERM" \/ sig = "SIGINT" ->
  server w cfg boot = (Ok tt, s0) ->
  listeners s = listeners s0 ->
  deliver w sig s = turn (run_listener w handleServerShutdown_fn ;; mret tt) s.
Proof.
  intros Hsig Hup Hsame.
  unfold deliver. rewrite Hsame, (server_listeners w cfg s0 Hup).
  destruct Hsig as [-> | ->]; reflexivity.
Qed.

(** The normal course: once server.ts has been evaluated, every delivery of
    SIGTERM or SIGINT runs the shutdown handler, which logs the shutdown
    message and, the log call having returned, exits with status 0. *)
Lemma shutdown_logs_and_exits_zero (w : World) (cfg : Config)
    (sig : string) (s0 s : process) :
  sig = "SIGTERM" \/ sig = "SIGINT" ->
  server w cfg boot = (Ok tt, s0) ->
  listeners s = listeners s0 ->
  log_fault w [LStr "Server SHUTDOWN"] = None ->
  deliver w sig s = (Exit 0, emit (Logged [LStr "Server SHUTDOWN"]) s).
Proof.
  intros Hsig Hup Hsame Hlog.
  rewrite (deliver_handled w cfg sig s0 s Hsig Hup Hsame).
  apply turn_exit. apply bind_exit.
  unfold run_listener.
  apply async_not_throw; [|discriminate].
  apply handleServerShutdown_exits. exact Hlog.
Qed.

Lemma shutdown_logs_and_exits_zero_witness :
  deliver calm "SIGTERM" (snd (server calm production boot))
  = (Exit 0,
     emit (Logged [LStr "Server SHUTDOWN"])
       (snd (server calm production boot))).
Proof.
  apply (shutdown_logs_and_exits_zero calm production "SIGTERM"
           (snd (server calm production boot))).
  - left. reflexivity.
  - vm_compute. reflexivity.
  - reflexivity.
  - reflexivity.
Defined.

(** ** Lifecycle controller: start-up *)

Example startup_bad_port_production :
  fst (server bad_port production boot) = Exit 1
  /\ trace (snd (server bad_port production boot))
     = [Logged [LStr "Failed to start the server";
                LErr (Error "ERR_SOCKET_BAD_PORT")]].
Proof. split; reflexivity. Qed.

Example startup_bad_port_development :
  fst (server bad_port development boot) = Ok tt
  /\ listening (snd (server bad_port development boot)) = None
  /\ trace (snd (server bad_port development boot))
     = [Logged [LStr "Failed to start the server";
                LErr (Error "ERR_SOCKET_BAD_PORT")]].
Proof. repeat split. Qed.

Example startup_broken_router_unset_env :
  fst (server broken_router (config ∅) boot) = Ok tt
  /\ listening (snd (server broken_router (config ∅) boot)) = None.
Proof. split; reflexivity. Qed.

Example startup_port_in_use_development :
  fst (main port_in_use development boot) = Ok tt
  /\ listening (snd (main port_in_use development boot)) = None.
Proof. split; vm_compute; reflexivity. Qed.

(** C4: the doc comment of the start-up function says that an error during
    start-up is logged and the process exits with status 1, and the code
    wraps [app.listen] in a [try] block for it.  A bind failure is not
    thrown by [app.listen]: it arrives after the block has ended.  At the
    failing input (production, the port taken) the catch does not run: the
    failure is not logged, the process is not exited, the running message
    is logged and nothing listens. *)
Theorem startup_bind_failure_not_caught :
  fst (main port_in_use production boot) = Ok tt
  /\ fst (main port_in_use production boot) <> Exit 1
  /\ listening (snd (main port_in_use production boot)) = None
  /\ trace (snd (main port_in_use production boot))
     = [Logged [LStr "Server is running on port 3000"]].
Proof.
  repeat split; try (vm_compute; reflexivity).
  vm_compute. discriminate.
Qed.

(** What the catch does with an exception thrown by the start-up block
    itself (route set-up, or [app.listen] refusing its arguments): the error
    is logged; the process then exits with status 1 when the environment is
    production, and in every other environment the start-up function
    returns without any exit. *)
Lemma startup_failure_policy (w : World) (cfg : Config) (s s1 : process)
    (e : js_error) :
  start_body w cfg s = (Throw e, s1) ->
  log_fault w [LStr "Failed to start the server"; LErr e] = None ->
  (NODE_ENV cfg = Some "production" ->
     async (start w cfg) s
     = (Exit 1,
        emit (Logged [LStr "Failed to start the server"; LErr e]) s1))
  /\ (NODE_ENV cfg <> Some "production" ->
      async (start w cfg) s
      = (Ok tt,
         emit (Logged [LStr "Failed to start the server"; LErr e]) s1)).
Proof.
  intros Hbody Hlog.
  assert (Hstart : start w cfg s =
            (if strict_eq (NODE_ENV cfg) "production"
             then process_exit 1 else mret tt)
              (emit (Logged [LStr "Failed to start the server"; LErr e]) s1)).
  { unfold start. rewrite (try_catch_throw _ _ s s1 e Hbody).
    unfold mbind, M_bind, console_log. rewrite Hlog. reflexivity. }
  split; intros Henv.
  - apply strict_eq_iff in Henv. rewrite Henv in Hstart.
    apply async_not_throw; [exact Hstart | discriminate].
  - destruct (strict_eq (NODE_ENV cfg) "production") eqn:E.
    + apply strict_eq_iff in E. contradiction.
    + apply async_not_throw; [exact Hstart | discriminate].
Qed.

Lemma startup_failure_policy_witness :
  async (start bad_port production) boot
  = (Exit 1,
     emit (Logged [LStr "Failed to start the server";
                   LErr (Error "ERR_SOCKET_BAD_PORT")])
       (snd (start_body bad_port production boot)))
  /\ async (start broken_router development) boot
     = (Ok tt,
        emit (Logged [LStr "Failed to start the server";
                      LErr (Error "Router.use() requires a middleware function")])
          (snd (start_body broken_router development boot))).
Proof.
  split.
  - apply (proj1 (startup_failure_policy bad_port production boot
                    (snd (start_body bad_port production boot))
                    (Error "ERR_SOCKET_BAD_PORT")
                    ltac:(vm_compute; reflexivity) eq_refl)).
    reflexivity.
  - apply (proj2 (startup_failure_policy broken_router development boot
                    (snd (start_body broken_router development boot))
                    (Error "Router.use() requires a middleware function")
                    ltac:(vm_compute; reflexivity) eq_refl)).
    discriminate.
Defined.

(** ** Middleware pipeline assembler *)

Lemma apply_middleware_run (w : World) (s : process) :
  (forall p mw, use_fault w p mw = None) ->
  apply_middleware w s
  = (Ok tt,
     fold_left (fun acc l => push_layer l acc) documented_chain s).
Proof.
  intros Huse.
  unfold apply_middleware, mbind, M_bind, app_use.
  rewrite !Huse. reflexivity.
Qed.

Lemma start_stack (w : World) (cfg : Config) (s : process) :
  (forall p mw, use_fault w p mw = None) ->
  stack (snd (async (start w cfg) s))
  = (stack s ++ documented_routes)%list.
Proof.
  intros Huse.
  unfold async, start, start_body, mindSyncRoute, try_catch, mbind, M_bind,
    app_use, app_listen, async, console_log, process_exit.
  rewrite !Huse.
  repeat match goal with
         | |- context [match log_fault ?w ?a with _ => _ end] =>
             destruct (log_fault w a)
         | |- context [match listen_fault ?w ?a with _ => _ end] =>
             destruct (listen_fault w a)
         | |- context [match bind_fault ?w ?a with _ => _ end] =>
             destruct (bind_fault w a)
         | |- context [if strict_eq ?a ?b then _ else _] =>
             destruct (strict_eq a b)
         end;
    simpl; rewrite <- ?app_assoc; reflexivity.
Qed.

(** What server.ts leaves on the layer stack when no [app.use] throws. *)
Lemma server_stack (w : World) (cfg : Config) :
  (forall p mw, use_fault w p mw = None) ->
  stack (snd (server w cfg boot))
  = (documented_chain ++ documented_routes)%list.
Proof.
  intros Huse. unfold server.
  rewrite (bind_ok _ _ boot _ tt (apply_middleware_run w boot Huse)).
  pose proof (start_stack w cfg
                (fold_left (fun acc l => push_layer l acc)
                   documented_chain boot) Huse) as Hst.
  unfold mbind, M_bind, process_on in *.
  destruct (async (start w cfg) _) as [[[]|e|c] s2]; simpl in *;
    rewrite Hst; reflexivity.
Qed.

(** C5: the middleware chain is, in order, CORS evaluation, JSON body
    parsing, URL-encoded body parsing, cookie parsing, compression with a
    1024-byte threshold, security headers, rate limiting; the routes come
    right after rate limiting. *)
Theorem middleware_chain_order (w : World) (cfg : Config) :
  (forall p mw, use_fault w p mw = None) ->
  stack (snd (apply_middleware w boot))
  = [ {| mount := "/"; handle := cors_corOptions |};
      {| mount := "/"; handle := express_json |};
      {| mount := "/"; handle := express_urlencoded true |};
      {| mount := "/"; handle := cookieParser |};
      {| mount := "/"; handle := compression 1024 |};
      {| mount := "/"; handle := helmet |};
      {| mount := "/"; handle := limiter |} ]
  /\ stack (snd (server w cfg boot))
     = [ {| mount := "/"; handle := cors_corOptions |};
         {| mount := "/"; handle := express_json |};
         {| mount := "/"; handle := express_urlencoded true |};
         {| mount := "/"; handle := cookieParser |};
         {| mount := "/"; handle := compression 1024 |};
         {| mount := "/"; handle := helmet |};
         {| mount := "/"; handle := limiter |};
         {| mount := "/health"; handle := health |};
         {| mount := "/api/v1"; handle := AuthRoute |} ].
Proof.
  intros Huse. split.
  - rewrite (apply_middleware_run w boot Huse). reflexivity.
  - apply (server_stack w cfg Huse).
Qed.

Lemma middleware_chain_order_witness :
  stack (snd (server calm production boot))
  = (documented_chain ++ documented_routes)%list.
Proof.
  apply (proj2 (middleware_chain_order calm production
                  (fun _ _ => eq_refl))).
Defined.

(** ** Rate limiter *)

Lemma rateLimit_handle_forwarded (opts : RateLimitOptions) (req : request)
    (next : M unit) (s : process) :
  fst (rateLimit_decide opts (ip req) (arrival req) (hits s)) = Forwarded ->
  rateLimit_handle opts req next s
  = next (set_hits
            (snd (rateLimit_decide opts (ip req) (arrival req) (hits s))) s).
Proof.
  unfold rateLimit_handle.
  destruct (rateLimit_decide opts (ip req) (arrival req) (hits s))
    as [v store]; simpl.
  intros ->. reflexivity.
Qed.

Lemma rateLimit_handle_rejected (opts : RateLimitOptions) (req : request)
    (next : M unit) (s : process) (r : reply) :
  fst (rateLimit_decide opts (ip req) (arrival req) (hits s)) = Rejected r ->
  rateLimit_handle opts req next s
  = finish r
      (set_hits
         (snd (rateLimit_decide opts (ip req) (arrival req) (hits s))) s).
Proof.
  unfold rateLimit_handle.
  destruct (rateLimit_decide opts (ip req) (arrival req) (hits s))
    as [v store]; simpl.
  intros ->. reflexivity.
Qed.




Example limiter_sixty_one_in_a_row :
  limiter_run limiter_options (repeat (plain "GET" "/health" 0) 61) ∅
  = (repeat Forwarded 60
     ++ [Rejected (Sent 429 (message limiter_options))])%list.
Proof. vm_compute. reflexivity. Qed.

Example limiter_window_restarts :
  limiter_run limiter_options
    (repeat (plain "GET" "/health" 0) 61
     ++ [plain "GET" "/health" 59999; plain "GET" "/health" 60000])%list ∅
  = (repeat Forwarded 60
     ++ [Rejected (Sent 429 (message limiter_options));
         Rejected (Sent 429 (message limiter_options));
         Forwarded])%list.
Proof. vm_compute. reflexivity. Qed.



(** ** Route mounter and dispatch *)

Lemma prefix_append (a b : string) : String.prefix a (a +:+ b) = true.
Proof.
  induction a as [|c a IH].
  - destruct b; reflexivity.
  - change (String.prefix (String c a) (String c (a +:+ b)) = true).
    change (match Ascii.ascii_dec c c with
            | left _ => String.prefix a (a +:+ b)
            | right _ => false
            end = true).
    destruct (Ascii.ascii_dec c c) as [_|Hne]; [exact IH | contradiction].
Qed.

Lemma append_assoc_string (a b c : string) :
  a +:+ (b +:+ c) = (a +:+ b) +:+ c.
Proof.
  induction a as [|x a IH]; [reflexivity|].
  change (String x (a +:+ (b +:+ c)) = String x ((a +:+ b) +:+ c)).
  f_equal. exact IH.
Qed.

Lemma lower_append (a b : string) : lower (a +:+ b) = lower a +:+ lower b.
Proof.
  induction a as [|x a IH]; [reflexivity|].
  change (String (lower_ascii x) (lower (a +:+ b))
          = String (lower_ascii x) (lower a +:+ lower b)).
  f_equal. exact IH.
Qed.

Lemma prefix_inv (a p : string) :
  String.prefix a p = true -> exists rest, p = a +:+ rest.
Proof.
  revert p. induction a as [|c a IH]; intros p H.
  - exists p. reflexivity.
  - destruct p as [|d p]; [destruct a; discriminate H|].
    change (match Ascii.ascii_dec c d with
            | left _ => String.prefix a p
            | right _ => false
            end = true) in H.
    destruct (Ascii.ascii_dec c d) as [<- | _]; [|discriminate H].
    destruct (IH p H) as (rest & ->).
    exists rest. reflexivity.
Qed.

Lemma mount_matches_root (p : string) : mount_matches "/" p = true.
Proof. reflexivity. Qed.

Lemma mount_matches_under (mnt p : string) :
  under mnt p -> mount_matches mnt p = true.
Proof.
  unfold mount_matches. intros [-> | (rest & ->)].
  - rewrite String.eqb_refl. apply orb_true_iff. left.
    apply orb_true_r.
  - apply orb_true_iff. right.
    rewrite !lower_append, append_assoc_string.
    apply prefix_append.
Qed.

(** A layer mounted elsewhere than the root sees a path only when the path,
    letter case aside, is the mount path or lies under it. *)
Lemma mount_matches_inv (mnt p : string) :
  mnt <> "/" -> mount_matches mnt p = true -> under (lower mnt) (lower p).
Proof.
  unfold mount_matches. intros Hroot H.
  apply orb_true_iff in H as [H | H].
  - apply orb_true_iff in H as [H | H].
    + apply String.eqb_eq in H. contradiction.
    + apply String.eqb_eq in H. left. exact H.
  - apply prefix_inv in H as (rest & ->).
    right. exists rest. symmetry. apply append_assoc_string.
Qed.

Lemma not_under_no_match (mnt p : string) :
  mnt <> "/" -> ~ under (lower mnt) (lower p) -> mount_matches mnt p = false.
Proof.
  intros Hroot Hnot.
  destruct (mount_matches mnt p) eqn:E; [|reflexivity].
  exfalso. apply Hnot. exact (mount_matches_inv mnt p Hroot E).
Qed.

Lemma try_catch_ok {A} (m : M A) (h : js_error -> M A) (s s1 : process)
    (a : A) :
  m s = (Ok a, s1) -> try_catch m h s = (Ok a, s1).
Proof. intros H. unfold try_catch. rewrite H. reflexivity. Qed.

(** The health responder answers whatever the request. *)
Lemma health_handler_replies (req : request) (s : process) :
  res s = None ->
  health_handler req s
  = (Ok tt,
     emit (Replied (Sent 200 health_body))
       (set_res (Some (Sent 200 health_body)) s)).
Proof.
  intros Hres. unfold health_handler, res_send, finish. rewrite Hres.
  reflexivity.
Qed.

Lemma dispatch_root_layer (w : World) (cfg : Config) (mw : middleware)
    (rest : list layer) (req : request) (s s1 : process) :
  run_middleware w cfg mw req (dispatch w cfg rest req) s = (Ok tt, s1) ->
  dispatch w cfg ({| mount := "/"; handle := mw |} :: rest) req s
  = (Ok tt, s1).
Proof.
  intros H. cbn [dispatch mount handle].
  rewrite mount_matches_root. apply try_catch_ok. exact H.
Qed.

(** The routes, then the final handler's turn: the request is answered with
    [route_reply], once, and nothing else changes. *)
Lemma dispatch_routes_reply (w : World) (cfg : Config) (req : request)
    (s : process) :
  res s = None ->
  final s = None ->
  exists s1 s2,
    dispatch w cfg documented_routes req s = (Ok tt, s1)
    /\ flush s1 = (Ok tt, s2)
    /\ res s2 = Some (route_reply w req)
    /\ hits s2 = hits s
    /\ stack s2 = stack s
    /\ trace s2 = (trace s ++ [Replied (route_reply w req)])%list.
Proof.
  intros Hres Hfinal. unfold route_reply.
  cbn [dispatch documented_routes mount handle run_middleware].
  destruct (mount_matches "/health" (path req)).
  - eexists. eexists. split.
    + apply try_catch_ok. apply health_handler_replies. exact Hres.
    + unfold flush. cbn [res final emit set_res]. repeat split.
  - destruct (mount_matches "/api/v1" (path req)).
    + destruct (third_party w AuthRoute req) as [|r|e].
      * eexists. eexists. split.
        -- apply try_catch_ok. unfold finalhandler. rewrite Hfinal.
           reflexivity.
        -- unfold flush. cbn [res final emit set_res set_final].
           rewrite Hres. repeat split.
      * eexists. eexists. split.
        -- apply try_catch_ok. unfold finish. rewrite Hres. reflexivity.
        -- unfold flush. cbn [res final emit set_res]. repeat split.
      * eexists. eexists. split.
        -- apply try_catch_ok. unfold finalhandler. rewrite Hfinal.
           reflexivity.
        -- unfold flush. cbn [res final emit set_res set_final].
           rewrite Hres. repeat split.
    + eexists. eexists. split.
      * unfold finalhandler. rewrite Hfinal. reflexivity.
      * unfold flush. cbn [res final emit set_res set_final].
        rewrite Hres. repeat split.
Qed.

Lemma dispatch_reaches_limiter (w : World) (cfg : Config) (req : request)
    (s s1 : process) :
  origin_allowed cfg (origin_header req) ->
  libraries_pass w req ->
  rateLimit_handle limiter_options req
    (dispatch w cfg documented_routes req) s = (Ok tt, s1) ->
  dispatch w cfg (documented_chain ++ documented_routes) req s = (Ok tt, s1).
Proof.
  intros Hcors (H1 & H2 & H3 & H4 & H5 & H6) Hlimit.
  unfold documented_chain. cbn [app].
  apply dispatch_root_layer. cbn [run_middleware]. unfold cors.
  rewrite (origin_allow w cfg _ _ Hcors), H1.
  apply dispatch_root_layer. cbn [run_middleware]. rewrite H2.
  apply dispatch_root_layer. cbn [run_middleware]. rewrite H3.
  apply dispatch_root_layer. cbn [run_middleware]. rewrite H4.
  apply dispatch_root_layer. cbn [run_middleware]. rewrite H5.
  apply dispatch_root_layer. cbn [run_middleware]. rewrite H6.
  apply dispatch_root_layer. unfold limiter. cbn [run_middleware].
  exact Hlimit.
Qed.

(** A request the CORS evaluator allows and the library stages hand on: the
    limiter counts it, and it is answered by the limiter or by the routes;
    the layer stack stays as it is. *)
Lemma handle_request_run (w : World) (cfg : Config) (req : request)
    (s : process) :
  stack s = (documented_chain ++ documented_routes)%list ->
  origin_allowed cfg (origin_header req) ->
  libraries_pass w req ->
  exists s',
    handle_request w cfg req s
    = (Ok (Some
             match fst (rateLimit_decide limiter_options (ip req)
                          (arrival req) (hits s)) with
             | Rejected r => r
             | Forwarded => route_reply w req
             end), s')
    /\ hits s'
       = snd (rateLimit_decide limiter_options (ip req) (arrival req)
                (hits s))
    /\ stack s' = stack s.
Proof.
  intros Hstack Hcors Hlibs.
  unfold handle_request. rewrite Hstack.
  destruct (rateLimit_decide limiter_options (ip req) (arrival req) (hits s))
    as [v store] eqn:Hdec.
  assert (Hdec' : rateLimit_decide limiter_options (ip req) (arrival req)
                    (hits (set_final None (set_res None s))) = (v, store))
    by exact Hdec.
  destruct v as [|r]; cbn [fst snd].
  - destruct (dispatch_routes_reply w cfg req
                (set_hits store (set_final None (set_res None s)))
                eq_refl eq_refl)
      as (s1 & s2 & Hroutes & Hflush & Hres & Hhits & Hst & _).
    rewrite (bind_ok _ _ _ s1 tt).
    + rewrite Hflush, Hres. eexists. split; [reflexivity|].
      split; [exact Hhits | rewrite Hst; exact Hstack].
    + apply (dispatch_reaches_limiter w cfg req _ s1 Hcors Hlibs).
      unfold rateLimit_handle. rewrite Hdec'. exact Hroutes.
  - rewrite (bind_ok _ _ _
               (emit (Replied r)
                  (set_res (Some r)
                     (set_hits store (set_final None (set_res None s)))))
               tt).
    + eexists. split; [reflexivity|].
      split; [reflexivity | exact Hstack].
    + apply (dispatch_reaches_limiter w cfg req _ _ Hcors Hlibs).
      unfold rateLimit_handle. rewrite Hdec'. reflexivity.
Qed.

Lemma handle_request_counted (w : World) (cfg : Config) (req : request)
    (s : process) :
  stack s = (documented_chain ++ documented_routes)%list ->
  origin_allowed cfg (origin_header req) ->
  libraries_pass w req ->
  fst (handle_request w cfg req s)
  = Ok (Some
          match fst (rateLimit_decide limiter_options (ip req) (arrival req)
                       (hits s)) with
          | Rejected r => r
          | Forwarded => route_reply w req
          end)
  /\ hits (snd (handle_request w cfg req s))
     = snd (rateLimit_decide limiter_options (ip req) (arrival req) (hits s)).
Proof.
  intros Hstack Hcors Hlibs.
  destruct (handle_request_run w cfg req s Hstack Hcors Hlibs)
    as (s' & Hrun & Hhits & _).
  rewrite Hrun. split; [reflexivity | exact Hhits].
Qed.

Lemma handle_request_health (w : World) (cfg : Config) (req : request)
    (s : process) :
  stack s = (documented_chain ++ documented_routes)%list ->
  under "/health" (path req) ->
  passes_chain w cfg s req ->
  fst (handle_request w cfg req s) = Ok (Some (Sent 200 health_body)).
Proof.
  intros Hstack Hpath (Hcors & Hlibs & Hlimit).
  rewrite (proj1 (handle_request_counted w cfg req s Hstack Hcors Hlibs)).
  rewrite Hlimit. unfold route_reply.
  rewrite (mount_matches_under _ _ Hpath). reflexivity.
Qed.

Example health_upper_case :
  fst (handle_request calm production (plain "GET" "/HEALTH" 0)
         (snd (server calm production boot)))
  = Ok (Some (Sent 200 health_body)).
Proof. vm_compute. reflexivity. Qed.

Example health_plain_get :
  fst (handle_request calm production (plain "GET" "/health" 0)
         (snd (server calm production boot)))
  = Ok (Some (Sent 200 health_body)).
Proof. vm_compute. reflexivity. Qed.

Example health_unknown_path :
  fst (handle_request calm production (plain "GET" "/healthz" 0)
         (snd (server calm production boot)))
  = Ok (Some NotFound).
Proof. vm_compute. reflexivity. Qed.

Example health_sixty_first_probe :
  fst (serve_all calm production (repeat (plain "GET" "/health" 0) 61)
         (snd (server calm production boot)))
  = Ok (repeat (Some (Sent 200 health_body)) 60
        ++ [Some (Sent 429 (message limiter_options))])%list.
Proof. vm_compute. reflexivity. Qed.

(** C8, as stated, fails: whether GET /health is answered with 200 depends
    on the configuration.  The same cross-origin request gets the payload in
    development and is turned away by the CORS evaluator in production. *)
Lemma health_get_counterexample :
  fst (handle_request calm development (cross_origin "GET" "/health")
         (snd (server calm development boot)))
  = Ok (Some (Sent 200 health_body))
  /\ fst (handle_request calm production (cross_origin "GET" "/health")
            (snd (server calm production boot)))
     = Ok (Some (Errored
                   (Error "CORS Error: http://evil.example is not allowed by CORS")))
  /\ fst (handle_request calm production (cross_origin "GET" "/health")
            (snd (server calm production boot)))
     <> Ok (Some (Sent 200 health_body)).
Proof.
  split; [vm_compute; reflexivity|].
  split; [vm_compute; reflexivity|].
  vm_compute. discriminate.
Qed.

(** C8 (amended): for every configuration, a GET request to /health that
    gets through the middleware chain (its origin is allowed by the CORS
    evaluator, the library stages hand it on, the limiter forwards it) is
    answered with status 200 and the body
    [{status: true, message: "MindSync is OK!"}]. *)
Theorem health_get_ok (w : World) (cfg : Config) (s : process)
    (req : request) :
  (forall p mw, use_fault w p mw = None) ->
  stack s = stack (snd (server w cfg boot)) ->
  method req = "GET" ->
  path req = "/health" ->
  passes_chain w cfg s req ->
  fst (handle_request w cfg req s)
  = Ok (Some (Sent 200
                (JObject [("status", JBool true);
                          ("message", JString "MindSync is OK!")]))).
Proof.
  intros Huse Hstack _ Hpath Hpass.
  rewrite (server_stack w cfg Huse) in Hstack.
  apply (handle_request_health w cfg req s Hstack); [|exact Hpass].
  left. exact Hpath.
Qed.

Lemma health_get_ok_witness :
  fst (handle_request calm production (plain "GET" "/health" 0)
         (snd (server calm production boot)))
  = Ok (Some (Sent 200
                (JObject [("status", JBool true);
                          ("message", JString "MindSync is OK!")]))).
Proof.
  apply (health_get_ok calm production).
  - intros p mw. reflexivity.
  - reflexivity.
  - reflexivity.
  - reflexivity.
  - split; [right; left; reflexivity|].
    split; [repeat split|].
    vm_compute. reflexivity.
Defined.

(** C9, as stated, fails for the same reason: a DELETE under /health sent
    cross-origin to a production server never reaches the responder. *)
Lemma health_any_method_counterexample :
  fst (handle_request calm production (cross_origin "DELETE" "/health/db")
         (snd (server calm production boot)))
  = Ok (Some (Errored
                (Error "CORS Error: http://evil.example is not allowed by CORS")))
  /\ fst (handle_request calm production (cross_origin "DELETE" "/health/db")
            (snd (server calm production boot)))
     <> Ok (Some (Sent 200 health_body)).
Proof.
  split; [vm_compute; reflexivity|].
  vm_compute. discriminate.
Qed.

(** C9 (amended): the health responder is mounted with [app.use], so a
    request with any method and any path that is /health or lies under it,
    once it has got through the middleware chain, is answered with the same
    fixed payload. *)
Theorem health_any_method_any_subpath (w : World) (cfg : Config)
    (s : process) (req : request) :
  (forall p mw, use_fault w p mw = None) ->
  stack s = stack (snd (server w cfg boot)) ->
  path req = "/health"
  \/ (exists rest, path req = "/health/" +:+ rest) ->
  passes_chain w cfg s req ->
  fst (handle_request w cfg req s)
  = Ok (Some (Sent 200
                (JObject [("status", JBool true);
                          ("message", JString "MindSync is OK!")]))).
Proof.
  intros Huse Hstack Hpath Hpass.
  rewrite (server_stack w cfg Huse) in Hstack.
  apply (handle_request_health w cfg req s Hstack); [|exact Hpass].
  destruct Hpath as [H | (rest & H)].
  - left. exact H.
  - right. exists rest. exact H.
Qed.

Lemma health_any_method_any_subpath_witness :
  fst (handle_request calm production (plain "POST" "/health/db/ping" 0)
         (snd (server calm production boot)))
  = Ok (Some (Sent 200
                (JObject [("status", JBool true);
                          ("message", JString "MindSync is OK!")]))).
Proof.
  apply (health_any_method_any_subpath calm production).
  - intros p mw. reflexivity.
  - reflexivity.
  - right. exists "db/ping". reflexivity.
  - split; [right; left; reflexivity|].
    split; [repeat split|].
    vm_compute. reflexivity.
Defined.

(** ** Rate limiter behind the chain *)




(** * Part III: further properties of the code *)

(** ** Configuration loader: port and unrelated variables *)

(** X1: [config.PORT] is the PORT variable, kept as the string it is, when
    that variable is set and not empty; when it is unset or empty the port
    is the number 3000. *)
Theorem config_port_rule (env : gmap string string) :
  (forall p, env !! "PORT" = Some p -> p <> "" ->
     PORT (config env) = PortEnv p)
  /\ (env !! "PORT" = None \/ env !! "PORT" = Some "" ->
      PORT (config env) = PortNumber 3000).
Proof.
  unfold config; simpl. split.
  - intros p -> Hne. simpl.
    apply String.eqb_neq in Hne. rewrite Hne. reflexivity.
  - intros [-> | ->]; reflexivity.
Qed.

Lemma config_port_rule_witness :
  PORT (config {["PORT" := "8080"]}) = PortEnv "8080"
  /\ PORT (config {["PORT" := ""]}) = PortNumber 3000.
Proof.
  split.
  - apply (proj1 (config_port_rule {["PORT" := "8080"]}) "8080").
    + reflexivity.
    + discriminate.
  - apply (proj2 (config_port_rule {["PORT" := ""]})).
    right. reflexivity.
Defined.

(** X2: the configuration reads three variables only: setting or removing
    any other variable leaves it unchanged. *)
Theorem config_reads_three_variables (env : gmap string string)
    (k v : string) :
  k <> "PORT" -> k <> "NODE_ENV" -> k <> "NODE_ORIGIN" ->
  config (<[k := v]> env) = config env
  /\ config (delete k env) = config env.
Proof.
  intros H1 H2 H3. unfold config.
  rewrite !lookup_insert_ne, !lookup_delete_ne by assumption.
  split; reflexivity.
Qed.

Lemma config_reads_three_variables_witness :
  config (<["HOME" := "/root"]> {["NODE_ENV" := "production"]})
  = config {["NODE_ENV" := "production"]}.
Proof.
  apply (proj1 (config_reads_three_variables
                  {["NODE_ENV" := "production"]} "HOME" "/root"
                  ltac:(discriminate) ltac:(discriminate)
                  ltac:(discriminate))).
Defined.

(** ** Configuration and CORS together *)

Lemma local_origin_listed (env : gmap string string) :
  In local_origin (WHITELIST_ORIGINS (config env)).
Proof.
  rewrite whitelist_cases.
  destruct (env !! "NODE_ORIGIN") as [o|]; [destruct (String.eqb o "")|];
    left; reflexivity.
Qed.

(** X3: whatever the environment holds, a request from the local default
    origin http://localhost:5173 is allowed. *)
Theorem local_origin_always_allowed (env : gmap string string) (w : World)
    (cb : option js_error -> bool -> M unit) :
  origin (corOptions w (config env)) (Some "http://localhost:5173") cb
  = cb None true.
Proof.
  apply origin_allow. right. right. right.
  exists local_origin. split; [reflexivity | apply local_origin_listed].
Qed.

(** X4: whatever else the environment holds, a request whose origin equals
    the value of the custom origin variable is allowed. *)
Theorem custom_origin_allowed (env : gmap string string) (o : string)
    (w : World) (cb : option js_error -> bool -> M unit) :
  env !! "NODE_ORIGIN" = Some o ->
  origin (corOptions w (config env)) (Some o) cb = cb None true.
Proof.
  intros Ho. apply origin_allow.
  destruct (String.eqb_spec o "") as [-> | Hne].
  - right. right. left. reflexivity.
  - right. right. right. exists o. split; [reflexivity|].
    rewrite whitelist_cases, Ho.
    apply String.eqb_neq in Hne. rewrite Hne.
    right. left. reflexivity.
Qed.

Lemma custom_origin_allowed_witness :
  origin
    (corOptions calm
       (config {["NODE_ENV" := "production";
                 "NODE_ORIGIN" := "https://mindsync.app"]}))
    (Some "https://mindsync.app") (fun _ _ => mret tt)
  = mret tt.
Proof.
  apply (custom_origin_allowed
           {["NODE_ENV" := "production";
             "NODE_ORIGIN" := "https://mindsync.app"]}
           "https://mindsync.app" calm (fun _ _ => mret tt)).
  vm_compute. reflexivity.
Defined.

(** X5: outside the development environment, a non-empty origin that is
    neither the local default nor the value of the custom origin variable is
    denied: the callback gets the error naming it and [false], and the
    message is logged. *)
Theorem unlisted_origin_denied (env : gmap string string) (x : string)
    (w : World) (cb : option js_error -> bool -> M unit) :
  env !! "NODE_ENV" <> Some "development" ->
  x <> "" ->
  x <> "http://localhost:5173" ->
  env !! "NODE_ORIGIN" <> Some x ->
  origin (corOptions w (config env)) (Some x) cb
  = (cb (Some (Error ("CORS Error: " +:+ x +:+ " is not allowed by CORS")))
       false ;;
     console_log w
       [LStr ("CORS Error: " +:+ x +:+ " is not allowed by CORS")]).
Proof.
  intros Hdev Hne Hlocal Hcustom.
  apply (origin_deny w (config env) (Some x) cb).
  split; [exact Hdev|].
  exists x. split; [reflexivity|]. split; [exact Hne|].
  rewrite whitelist_cases.
  destruct (env !! "NODE_ORIGIN") as [o|] eqn:Ho.
  - destruct (String.eqb o "").
    + intros [H | []]. exact (Hlocal (eq_sym H)).
    + intros [H | [H | []]].
      * exact (Hlocal (eq_sym H)).
      * apply Hcustom. rewrite H. reflexivity.
  - intros [H | []]. exact (Hlocal (eq_sym H)).
Qed.

Lemma unlisted_origin_denied_witness :
  origin (corOptions calm (config {["NODE_ORIGIN" := "https://mindsync.app"]}))
    (Some "http://evil.example") (fun _ _ => mret tt)
  = ((fun _ _ => mret tt)
       (Some (Error ("CORS Error: " +:+ "http://evil.example"
                     +:+ " is not allowed by CORS"))) false ;;
     console_log calm
       [LStr ("CORS Error: " +:+ "http://evil.example"
              +:+ " is not allowed by CORS")]).
Proof.
  apply (unlisted_origin_denied {["NODE_ORIGIN" := "https://mindsync.app"]}
           "http://evil.example" calm (fun _ _ => mret tt)).
  - vm_compute. discriminate.
  - discriminate.
  - discriminate.
  - vm_compute. discriminate.
Defined.

(** X6: the origin function calls its callback exactly once, and never with
    an error together with [true] nor without an error together with
    [false]; it logs only after a refusal. *)
Theorem cors_callback_called_once (w : World) (cfg : Config)
    (o : option string) :
  exists (err : option js_error) (allow : bool),
    (allow = true <-> err = None)
    /\ forall cb : option js_error -> bool -> M unit,
         origin (corOptions w cfg) o cb
         = if allow
           then cb err allow
           else (cb err allow ;; console_log w [LStr (cors_message o)]).
Proof.
  unfold corOptions; simpl.
  destruct (strict_eq (NODE_ENV cfg) "development" || negb (truthy o)
            || includes (WHITELIST_ORIGINS cfg) o).
  - exists None, true. split; [tauto|]. intros cb. reflexivity.
  - exists (Some (Error (cors_message o))), false.
    split; [split; discriminate|]. intros cb. reflexivity.
Qed.

(** ** Lifecycle controller: the normal start and what start-up never does *)

Ltac split_faults :=
  repeat match goal with
         | |- context [match use_fault ?w ?p ?m with _ => _ end] =>
             destruct (use_fault w p m) eqn:?
         | |- context [match listen_fault ?w ?p with _ => _ end] =>
             destruct (listen_fault w p) eqn:?
         | |- context [match bind_fault ?w ?p with _ => _ end] =>
             destruct (bind_fault w p) eqn:?
         | |- context [match log_fault ?w ?a with _ => _ end] =>
             destruct (log_fault w a) eqn:?
         | |- context [if strict_eq ?a ?b then _ else _] =>
             destruct (strict_eq a b) eqn:?
         end.

(** X7: when no call fails and the port can be bound, evaluating server.ts
    mounts the chain and the routes, binds the configured port, logs the
    running message once, and registers the shutdown handler for SIGTERM and
    SIGINT; the first turn ends normally. *)
Theorem server_starts (w : World) (cfg : Config) :
  (forall p mw, use_fault w p mw = None) ->
  listen_fault w (PORT cfg) = None ->
  bind_fault w (PORT cfg) = None ->
  log_fault w
    [LStr ("Server is running on port " +:+ port_to_string (PORT cfg))]
  = None ->
  main w cfg boot
  = (Ok tt,
     {| trace :=
          [Logged
             [LStr ("Server is running on port "
                    +:+ port_to_string (PORT cfg))]];
        stack := documented_chain ++ documented_routes;
        listening := Some (PORT cfg);
        listeners := [("SIGTERM", handleServerShutdown_fn);
                      ("SIGINT", handleServerShutdown_fn)];
        uncaught := [];
        hits := ∅;
        res := None;
        final := None |}).
Proof.
  intros Huse Hlisten Hbind Hlog.
  unfold main, turn, server, apply_middleware, start, start_body,
    mindSyncRoute, try_catch, async, mbind, M_bind, app_use, app_listen,
    async, console_log, process_on.
  rewrite !Huse, Hlisten, Hbind. simpl. rewrite Hlog. reflexivity.
Qed.

Lemma server_starts_witness :
  listening (snd (main calm (config {["PORT" := "8080"]}) boot))
  = Some (PortEnv "8080")
  /\ trace (snd (main calm (config {["PORT" := "8080"]}) boot))
     = [Logged [LStr "Server is running on port 8080"]].
Proof.
  rewrite (server_starts calm (config {["PORT" := "8080"]})
             (fun _ _ => eq_refl) eq_refl eq_refl eq_refl).
  split; reflexivity.
Defined.

(** The [try] block of the start-up function never exits the process. *)
Lemma start_body_no_exit (w : World) (cfg : Config) (s s1 : process)
    (c : Z) :
  start_body w cfg s <> (Exit c, s1).
Proof.
  unfold start_body, mindSyncRoute, mbind, M_bind, app_use, app_listen,
    async, console_log.
  split_faults; discriminate.
Qed.

Lemma start_outcome (w : World) (cfg : Config) (s s1 : process)
    (r : outcome unit) :
  async (start w cfg) s = (r, s1) ->
  r = Ok tt \/ (r = Exit 1 /\ NODE_ENV cfg = Some "production").
Proof.
  unfold async, start, try_catch.
  destruct (start_body w cfg s) as [[[]|e|c] s2] eqn:Hbody.
  - intros [= <- _]. left. reflexivity.
  - unfold mbind, M_bind, console_log, process_exit.
    destruct (log_fault w [LStr "Failed to start the server"; LErr e]).
    + intros [= <- _]. left. reflexivity.
    + destruct (strict_eq (NODE_ENV cfg) "production") eqn:Henv.
      * intros [= <- _]. right. split; [reflexivity|].
        apply strict_eq_iff. exact Henv.
      * intros [= <- _]. left. reflexivity.
  - exfalso. exact (start_body_no_exit w cfg s s2 c Hbody).
Qed.

Lemma apply_middleware_frame (w : World) (s s1 : process)
    (r : outcome unit) :
  apply_middleware w s = (r, s1) ->
  uncaught s1 = uncaught s /\ listening s1 = listening s.
Proof.
  unfold apply_middleware, mbind, M_bind, app_use.
  split_faults; intros [= <- <-]; split; reflexivity.
Qed.

Lemma start_body_throw_frame (w : World) (cfg : Config) (s s1 : process)
    (e : js_error) :
  start_body w cfg s = (Throw e, s1) ->
  uncaught s1 = uncaught s /\ listening s1 = listening s.
Proof.
  unfold start_body, mindSyncRoute, mbind, M_bind, app_use, app_listen,
    async, console_log.
  split_faults; intros H; try discriminate H;
    injection H as <- <-; split; reflexivity.
Qed.

(** X8: outside production a failure thrown during start-up ends the
    process only when logging it fails too.  When the catch block's log
    returns, the first turn ends normally with nothing listening.  When
    that log throws, the start-up function's promise is rejected with
    nobody to handle it: server.ts still registers the signal handlers, and
    the turn ends the process with status 1. *)
Theorem start_failure_outside_production (w : World) (cfg : Config)
    (s1 s2 : process) (e : js_error) :
  NODE_ENV cfg <> Some "production" ->
  apply_middleware w boot = (Ok tt, s1) ->
  start_body w cfg s1 = (Throw e, s2) ->
  (log_fault w [LStr "Failed to start the server"; LErr e] = None ->
     fst (main w cfg boot) = Ok tt
     /\ listening (snd (main w cfg boot)) = None)
  /\ (forall e',
        log_fault w [LStr "Failed to start the server"; LErr e] = Some e' ->
        fst (main w cfg boot) = Exit 1
        /\ uncaught (snd (main w cfg boot)) = [e']
        /\ listeners (snd (main w cfg boot))
           = [("SIGTERM", handleServerShutdown_fn);
              ("SIGINT", handleServerShutdown_fn)]).
Proof.
  intros Henv Hchain Hbody.
  destruct (apply_middleware_frame w boot s1 _ Hchain) as [Hu1 Hl1].
  destruct (start_body_throw_frame w cfg s1 s2 e Hbody) as [Hu2 Hl2].
  assert (Hnot : strict_eq (NODE_ENV cfg) "production" = false).
  { destruct (strict_eq (NODE_ENV cfg) "production") eqn:E; [|reflexivity].
    apply strict_eq_iff in E. contradiction. }
  split.
  - intros Hlog.
    assert (Hrun : server w cfg boot
                   = (Ok tt,
                      add_listener "SIGINT" handleServerShutdown_fn
                        (add_listener "SIGTERM" handleServerShutdown_fn
                           (emit (Logged [LStr "Failed to start the server";
                                          LErr e]) s2)))).
    { unfold server. rewrite (bind_ok _ _ boot s1 tt Hchain).
      rewrite (bind_ok _ _ s1
                 (emit (Logged [LStr "Failed to start the server"; LErr e])
                    s2) tt); [reflexivity|].
      apply async_not_throw; [|discriminate].
      unfold start. rewrite (try_catch_throw _ _ s1 s2 e Hbody).
      unfold mbind, M_bind, console_log. rewrite Hlog, Hnot. reflexivity. }
    unfold main. rewrite (turn_quiet _ _ _ tt Hrun).
    + split; [reflexivity|]. cbn. rewrite Hl2, Hl1. reflexivity.
    + cbn. rewrite Hu2, Hu1. reflexivity.
  - intros e' Hlog.
    assert (Hrun : server w cfg boot
                   = (Ok tt,
                      add_listener "SIGINT" handleServerShutdown_fn
                        (add_listener "SIGTERM" handleServerShutdown_fn
                           (add_uncaught e' s2)))).
    { unfold server. rewrite (bind_ok _ _ boot s1 tt Hchain).
      rewrite (bind_ok _ _ s1 (add_uncaught e' s2) tt); [reflexivity|].
      unfold async, start. rewrite (try_catch_throw _ _ s1 s2 e Hbody).
      unfold mbind, M_bind, console_log. rewrite Hlog. reflexivity. }
    unfold main. rewrite (turn_rejection _ _ _ tt e' Hrun).
    + split; [reflexivity|]. split.
      * cbn. rewrite Hu2, Hu1. reflexivity.
      * apply (server_listeners w cfg _ Hrun).
    + cbn. rewrite Hu2, Hu1. reflexivity.
Qed.

Lemma start_failure_outside_production_witness :
  (fst (main bad_port development boot) = Ok tt
   /\ listening (snd (main bad_port development boot)) = None)
  /\ (fst (main bad_port_broken_console development boot) = Exit 1
      /\ uncaught (snd (main bad_port_broken_console development boot))
         = [Error "write EPIPE"]
      /\ listeners (snd (main bad_port_broken_console development boot))
         = [("SIGTERM", handleServerShutdown_fn);
            ("SIGINT", handleServerShutdown_fn)]).
Proof.
  split.
  - apply (proj1 (start_failure_outside_production bad_port development
                    (snd (apply_middleware bad_port boot))
                    (snd (start_body bad_port development
                            (snd (apply_middleware bad_port boot))))
                    (Error "ERR_SOCKET_BAD_PORT")
                    ltac:(discriminate)
                    ltac:(vm_compute; reflexivity)
                    ltac:(vm_compute; reflexivity))).
    reflexivity.
  - apply (proj2 (start_failure_outside_production bad_port_broken_console
                    development
                    (snd (apply_middleware bad_port_broken_console boot))
                    (snd (start_body bad_port_broken_console development
                            (snd (apply_middleware bad_port_broken_console
                                    boot))))
                    (Error "ERR_SOCKET_BAD_PORT")
                    ltac:(discriminate)
                    ltac:(vm_compute; reflexivity)
                    ltac:(vm_compute; reflexivity))
             (Error "write EPIPE")).
    reflexivity.
Defined.

(** X9: outside production, once the middleware chain is in place the
    evaluation of server.ts completes whatever fails during start-up, and
    the shutdown handler ends up registered for both signals. *)
Theorem handlers_registered_despite_failed_start (w : World) (cfg : Config)
    (s1 : process) :
  NODE_ENV cfg <> Some "production" ->
  apply_middleware w boot = (Ok tt, s1) ->
  exists s0,
    server w cfg boot = (Ok tt, s0)
    /\ listeners s0 = [("SIGTERM", handleServerShutdown_fn);
                       ("SIGINT", handleServerShutdown_fn)].
Proof.
  intros Henv Hchain.
  destruct (async (start w cfg) s1) as [r s2] eqn:Hstart.
  pose proof (start_outcome w cfg s1 s2 r Hstart) as [-> | [_ Hprod]];
    [|contradiction].
  assert (Hrun : server w cfg boot
                 = (Ok tt,
                    add_listener "SIGINT" handleServerShutdown_fn
                      (add_listener "SIGTERM" handleServerShutdown_fn s2))).
  { unfold server. rewrite (bind_ok _ _ boot s1 tt Hchain).
    rewrite (bind_ok _ _ s1 s2 tt Hstart). reflexivity. }
  eexists. split; [exact Hrun|].
  apply (server_listeners w cfg _ Hrun).
Qed.

Lemma handlers_registered_despite_failed_start_witness :
  exists s0,
    server bad_port development boot = (Ok tt, s0)
    /\ listeners s0 = [("SIGTERM", handleServerShutdown_fn);
                       ("SIGINT", handleServerShutdown_fn)].
Proof.
  apply (handlers_registered_despite_failed_start bad_port development
           (snd (apply_middleware bad_port boot))).
  - discriminate.
  - vm_compute. reflexivity.
Defined.

(** X10: the server listens only with everything mounted: whenever the
    evaluation of server.ts leaves a bound port, that port is the configured
    one, the layer stack is the full chain followed by both routes, and the
    evaluation completed normally. *)
Theorem listening_implies_mounted (w : World) (cfg : Config) (p : port) :
  listening (snd (server w cfg boot)) = Some p ->
  p = PORT cfg
  /\ stack (snd (server w cfg boot))
     = (documented_chain ++ documented_routes)%list
  /\ fst (server w cfg boot) = Ok tt.
Proof.
  unfold server, apply_middleware, start, start_body, mindSyncRoute,
    try_catch, async, mbind, M_bind, app_use, app_listen, async,
    console_log, process_on, process_exit.
  split_faults; simpl; intros [= <-] || discriminate;
    repeat split; reflexivity.
Qed.

Lemma listening_implies_mounted_witness :
  PortNumber 3000 = PORT production
  /\ stack (snd (server calm production boot))
     = (documented_chain ++ documented_routes)%list
  /\ fst (server calm production boot) = Ok tt.
Proof.
  apply (listening_implies_mounted calm production (PortNumber 3000)).
  vm_compute. reflexivity.
Defined.

(** ** Lifecycle controller: signals *)

(** X11: only SIGTERM and SIGINT have a listener.  Any other signal runs
    no code of the program and leaves its state unchanged: it has its
    default action, which for a fatal signal ends the process with status
    128 plus the signal number, without the shutdown message. *)
Theorem other_signals_have_no_handler (w : World) (cfg : Config)
    (sig : string) (s0 s : process) :
  sig <> "SIGTERM" -> sig <> "SIGINT" ->
  server w cfg boot = (Ok tt, s0) ->
  listeners s = listeners s0 ->
  deliver w sig s
  = (match fatal_signal w sig with
     | Some n => Exit (128 + n)
     | None => Ok tt
     end, s).
Proof.
  intros Hterm Hint Hup Hsame.
  unfold deliver. rewrite Hsame, (server_listeners w cfg s0 Hup).
  cbn [has_listener existsb fst].
  destruct (String.eqb_spec "SIGTERM" sig) as [H | _];
    [exfalso; exact (Hterm (eq_sym H))|].
  destruct (String.eqb_spec "SIGINT" sig) as [H | _];
    [exfalso; exact (Hint (eq_sym H))|].
  cbn [orb]. destruct (fatal_signal w sig); reflexivity.
Qed.

Lemma other_signals_have_no_handler_witness :
  deliver calm "SIGHUP" (snd (server calm production boot))
  = (Exit 129, snd (server calm production boot))
  /\ deliver calm "SIGWINCH" (snd (server calm production boot))
     = (Ok tt, snd (server calm production boot)).
Proof.
  split.
  - apply (other_signals_have_no_handler calm production "SIGHUP"
             (snd (server calm production boot))).
    + discriminate.
    + discriminate.
    + vm_compute. reflexivity.
    + reflexivity.
  - apply (other_signals_have_no_handler calm production "SIGWINCH"
             (snd (server calm production boot))).
    + discriminate.
    + discriminate.
    + vm_compute. reflexivity.
    + reflexivity.
Defined.

(** X12: what SIGTERM or SIGINT does to the evaluated server is decided by
    the two log calls of the handler.  The shutdown log returns: exit with
    status 0.  It throws and the catch block's log returns: the handler
    returns and the process goes on.  Both throw: the handler's promise is
    rejected with nobody to handle it and the process ends with status 1.
    No other outcome exists. *)
Theorem handled_signal_outcome (w : World) (cfg : Config) (sig : string)
    (s0 s : process) :
  sig = "SIGTERM" \/ sig = "SIGINT" ->
  server w cfg boot = (Ok tt, s0) ->
  listeners s = listeners s0 ->
  fst (deliver w sig s)
  = match log_fault w [LStr "Server SHUTDOWN"] with
    | None => Exit 0
    | Some e =>
        match log_fault w [LStr "Error during server shutdown"; LErr e] with
        | None => Ok tt
        | Some _ => Exit 1
        end
    end.
Proof.
  intros Hsig Hup Hsame.
  rewrite (deliver_handled w cfg sig s0 s Hsig Hup Hsame).
  destruct (log_fault w [LStr "Server SHUTDOWN"]) as [e|] eqn:Hlog.
  - destruct (log_fault w [LStr "Error during server shutdown"; LErr e])
      as [e'|] eqn:Hlog'.
    + rewrite (turn_rejection _ s (add_uncaught e' s) tt e');
        [reflexivity | | reflexivity].
      rewrite (bind_ok _ _ s (add_uncaught e' s) tt); [reflexivity|].
      unfold run_listener, async.
      rewrite (handleServerShutdown_throw w s e Hlog).
      unfold console_log. rewrite Hlog'. reflexivity.
    + rewrite (turn_quiet _ s
                 (emit (Logged [LStr "Error during server shutdown"; LErr e])
                    s) tt); [reflexivity | | reflexivity].
      rewrite (bind_ok _ _ s
                 (emit (Logged [LStr "Error during server shutdown"; LErr e])
                    s) tt); [reflexivity|].
      unfold run_listener.
      apply async_not_throw; [|discriminate].
      rewrite (handleServerShutdown_throw w s e Hlog).
      unfold console_log. rewrite Hlog'. reflexivity.
  - rewrite (turn_exit _ s (emit (Logged [LStr "Server SHUTDOWN"]) s) 0);
      [reflexivity|].
    apply bind_exit. unfold run_listener.
    apply async_not_throw; [|discriminate].
    apply handleServerShutdown_exits. exact Hlog.
Qed.

Lemma handled_signal_outcome_witness :
  fst (deliver broken_console_twice "SIGTERM"
         (snd (server broken_console_twice production boot)))
  = Exit 1.
Proof.
  apply (handled_signal_outcome broken_console_twice production "SIGTERM"
           (snd (server broken_console_twice production boot))
           (snd (server broken_console_twice production boot))).
  - left. reflexivity.
  - vm_compute. reflexivity.
  - reflexivity.
Defined.

(** X13: when the logging of the shutdown message throws, the handler logs
    the error and returns: the process is not exited and keeps running. *)
Theorem shutdown_log_failure_keeps_running (w : World) (cfg : Config)
    (sig : string) (s0 s : process) (e : js_error) :
  sig = "SIGTERM" \/ sig = "SIGINT" ->
  server w cfg boot = (Ok tt, s0) ->
  listeners s = listeners s0 ->
  log_fault w [LStr "Server SHUTDOWN"] = Some e ->
  log_fault w [LStr "Error during server shutdown"; LErr e] = None ->
  deliver w sig s
  = (Ok tt, emit (Logged [LStr "Error during server shutdown"; LErr e]) s).
Proof.
  intros Hsig Hup Hsame Hthrow Hlog.
  rewrite (deliver_handled w cfg sig s0 s Hsig Hup Hsame).
  apply turn_quiet; [|reflexivity].
  rewrite (bind_ok _ _ s
             (emit (Logged [LStr "Error during server shutdown"; LErr e]) s)
             tt); [reflexivity|].
  unfold run_listener.
  apply async_not_throw; [|discriminate].
  rewrite (handleServerShutdown_throw w s e Hthrow).
  unfold console_log. rewrite Hlog. reflexivity.
Qed.

Lemma shutdown_log_failure_keeps_running_witness :
  deliver broken_console "SIGINT"
    (snd (server broken_console production boot))
  = (Ok tt,
     emit (Logged [LStr "Error during server shutdown";
                   LErr (Error "write EPIPE")])
       (snd (server broken_console production boot))).
Proof.
  apply (shutdown_log_failure_keeps_running broken_console production
           "SIGINT" (snd (server broken_console production boot))).
  - right. reflexivity.
  - vm_compute. reflexivity.
  - reflexivity.
  - reflexivity.
  - reflexivity.
Defined.

(** ** Requests against the running server *)

(** X14: CORS evaluation comes first: a request whose origin is denied
    fails with the CORS error whatever its method and path, and is not
    counted by the rate limiter.  The denial is logged while the origin
    function runs; the error response is written afterwards, by the final
    handler. *)
Theorem cors_denied_request_fails_first (w : World) (cfg : Config)
    (s : process) (req : request) :
  (forall p mw, use_fault w p mw = None) ->
  stack s = stack (snd (server w cfg boot)) ->
  origin_denied cfg (origin_header req) ->
  log_fault w [LStr (cors_message (origin_header req))] = None ->
  fst (handle_request w cfg req s)
  = Ok (Some (Errored (Error (cors_message (origin_header req)))))
  /\ hits (snd (handle_request w cfg req s)) = hits s
  /\ trace (snd (handle_request w cfg req s))
     = (trace s
        ++ [Logged [LStr (cors_message (origin_header req))];
            Replied (Errored (Error (cors_message (origin_header req))))])%list.
Proof.
  intros Huse Hstack Hden Hlog.
  rewrite (server_stack w cfg Huse) in Hstack.
  unfold handle_request. rewrite Hstack.
  unfold documented_chain. cbn [app].
  rewrite (bind_ok _ _ (set_final None (set_res None s))
             (emit (Logged [LStr (cors_message (origin_header req))])
                (set_final
                   (Some (Errored (Error (cors_message (origin_header req)))))
                   (set_final None (set_res None s)))) tt).
  - unfold flush.
    cbn [fst snd hits trace res final emit set_res set_final].
    split; [reflexivity|]. split; [reflexivity|].
    rewrite <- app_assoc. reflexivity.
  - apply dispatch_root_layer. cbn [run_middleware]. unfold cors.
    rewrite (origin_deny w cfg _ _ Hden).
    unfold mbind, M_bind, finalhandler, console_log.
    cbn [final set_final set_res].
    rewrite Hlog. reflexivity.
Qed.

Lemma cors_denied_request_fails_first_witness :
  fst (handle_request calm production (cross_origin "POST" "/api/v1/login")
         (snd (server calm production boot)))
  = Ok (Some (Errored
                (Error "CORS Error: http://evil.example is not allowed by CORS")))
  /\ hits (snd (handle_request calm production
                  (cross_origin "POST" "/api/v1/login")
                  (snd (server calm production boot))))
     = ∅.
Proof.
  destruct (cors_denied_request_fails_first calm production
              (snd (server calm production boot))
              (cross_origin "POST" "/api/v1/login"))
    as (Hreply & Hhits & _).
  - intros p mw. reflexivity.
  - reflexivity.
  - split; [discriminate|].
    exists "http://evil.example". split; [reflexivity|].
    split; [discriminate|].
    intros [H | []]. discriminate H.
  - reflexivity.
  - split; [exact Hreply | exact Hhits].
Defined.

(** X15: rate limiting covers every route: once a client has 60 requests
    counted in its running window, a further request in that window that got
    past CORS and the library stages is answered with status 429 and the
    fixed message, whatever its method and path, /health included. *)
Theorem rate_limited_on_every_route (w : World) (cfg : Config) (s : process)
    (req : request) (e : entry) :
  (forall p mw, use_fault w p mw = None) ->
  stack s = stack (snd (server w cfg boot)) ->
  origin_allowed cfg (origin_header req) ->
  libraries_pass w req ->
  hits s !! ip req = Some e ->
  arrival req < windowStart e + 60000 ->
  60 <= count e ->
  fst (handle_request w cfg req s)
  = Ok (Some
          (Sent 429
             (JObject
                [("error",
                  JString "You have sent too many request in a given amount of time. Please try again later.")]))).
Proof.
  intros Huse Hstack Hcors Hlibs He Hwin Hcount.
  rewrite (server_stack w cfg Huse) in Hstack.
  rewrite (proj1 (handle_request_counted w cfg req s Hstack Hcors Hlibs)).
  unfold rateLimit_decide, record_hit. rewrite He. cbn [fst].
  cbn [windowMs limit limiter_options].
  destruct (Z.ltb_spec (arrival req) (windowStart e + 60000)) as [_|H];
    [|lia].
  cbn [count].
  destruct (Z.ltb_spec 60 (count e + 1)) as [_|H]; [|lia].
  reflexivity.
Qed.

Lemma rate_limited_on_every_route_witness :
  fst (handle_request calm production (plain "GET" "/health" 1000)
         (set_hits {["203.0.113.7" := {| count := 60; windowStart := 0 |}]}
            (snd (server calm production boot))))
  = Ok (Some
          (Sent 429
             (JObject
                [("error",
                  JString "You have sent too many request in a given amount of time. Please try again later.")]))).
Proof.
  apply (rate_limited_on_every_route calm production
           (set_hits {["203.0.113.7" := {| count := 60; windowStart := 0 |}]}
              (snd (server calm production boot)))
           (plain "GET" "/health" 1000)
           {| count := 60; windowStart := 0 |}).
  - intros p mw. reflexivity.
  - reflexivity.
  - right. left. reflexivity.
  - repeat split.
  - vm_compute. reflexivity.
  - vm_compute. reflexivity.
  - vm_compute. discriminate.
Defined.

(** X16: every request that gets past CORS and the library stages is
    counted against its client, whether the limiter then rejects it or a
    route (or no route) answers it; the counters of other clients are left
    alone. *)
Theorem every_passed_request_counted (w : World) (cfg : Config)
    (s : process) (req : request) :
  (forall p mw, use_fault w p mw = None) ->
  stack s = stack (snd (server w cfg boot)) ->
  origin_allowed cfg (origin_header req) ->
  libraries_pass w req ->
  hits (snd (handle_request w cfg req s)) !! ip req
  = Some (record_hit limiter_options (ip req) (arrival req) (hits s))
  /\ forall k, k <> ip req ->
       hits (snd (handle_request w cfg req s)) !! k = hits s !! k.
Proof.
  intros Huse Hstack Hcors Hlibs.
  rewrite (server_stack w cfg Huse) in Hstack.
  rewrite (proj2 (handle_request_counted w cfg req s Hstack Hcors Hlibs)).
  unfold rateLimit_decide. cbn [snd]. split.
  - apply lookup_insert_eq.
  - intros k Hk. apply lookup_insert_ne. congruence.
Qed.

Lemma every_passed_request_counted_witness :
  hits (snd (handle_request calm production (plain "GET" "/health" 5)
               (snd (server calm production boot)))) !! "203.0.113.7"
  = Some {| count := 1; windowStart := 5 |}.
Proof.
  apply (proj1 (every_passed_request_counted calm production
                  (snd (server calm production boot))
                  (plain "GET" "/health" 5)
                  (fun _ _ => eq_refl) eq_refl
                  (or_intror (or_introl eq_refl))
                  (conj eq_refl (conj eq_refl (conj eq_refl
                     (conj eq_refl (conj eq_refl eq_refl))))))).
Defined.

(** X17: every request under /api/v1, whatever its method, that gets
    through the middleware chain is handed to the imported router: the
    router's response or error is the outcome, and a request the router
    passes on is "not found". *)
Theorem api_requests_delegated (w : World) (cfg : Config) (s : process)
    (req : request) :
  (forall p mw, use_fault w p mw = None) ->
  stack s = stack (snd (server w cfg boot)) ->
  under "/api/v1" (path req) ->
  passes_chain w cfg s req ->
  fst (handle_request w cfg req s)
  = Ok (Some match third_party w AuthRoute req with
             | Next => NotFound
             | Respond r => r
             | Fail e => Errored e
             end).
Proof.
  intros Huse Hstack Hpath (Hcors & Hlibs & Hlimit).
  rewrite (server_stack w cfg Huse) in Hstack.
  rewrite (proj1 (handle_request_counted w cfg req s Hstack Hcors Hlibs)).
  rewrite Hlimit. unfold route_reply.
  rewrite (mount_matches_under _ _ Hpath).
  assert (Hhealth : mount_matches "/health" (path req) = false).
  { destruct Hpath as [-> | (rest & ->)]; vm_compute; reflexivity. }
  rewrite Hhealth. reflexivity.
Qed.

Lemma api_requests_delegated_witness :
  fst (handle_request calm production (plain "POST" "/api/v1/login" 0)
         (snd (server calm production boot)))
  = Ok (Some NotFound).
Proof.
  apply (api_requests_delegated calm production
           (snd (server calm production boot))
           (plain "POST" "/api/v1/login" 0)).
  - intros p mw. reflexivity.
  - reflexivity.
  - right. exists "login". reflexivity.
  - split; [right; left; reflexivity|].
    split; [repeat split|].
    vm_compute. reflexivity.
Defined.

(** X18: there are no other routes: a request that gets through the
    middleware chain with a path that, letter case aside, is neither /health
    nor /api/v1 nor under one of them is "not found". *)
Theorem unrouted_request_not_found (w : World) (cfg : Config) (s : process)
    (req : request) :
  (forall p mw, use_fault w p mw = None) ->
  stack s = stack (snd (server w cfg boot)) ->
  ~ under "/health" (lower (path req)) ->
  ~ under "/api/v1" (lower (path req)) ->
  passes_chain w cfg s req ->
  fst (handle_request w cfg req s) = Ok (Some NotFound).
Proof.
  intros Huse Hstack Hhealth Hapi (Hcors & Hlibs & Hlimit).
  rewrite (server_stack w cfg Huse) in Hstack.
  rewrite (proj1 (handle_request_counted w cfg req s Hstack Hcors Hlibs)).
  rewrite Hlimit. unfold route_reply.
  rewrite (not_under_no_match "/health" (path req)) by
    (discriminate || exact Hhealth).
  rewrite (not_under_no_match "/api/v1" (path req)) by
    (discriminate || exact Hapi).
  reflexivity.
Qed.

Lemma unrouted_request_not_found_witness :
  fst (handle_request calm production (plain "GET" "/Healthz" 0)
         (snd (server calm production boot)))
  = Ok (Some NotFound).
Proof.
  apply (unrouted_request_not_found calm production
           (snd (server calm production boot))
           (plain "GET" "/Healthz" 0)).
  - intros p mw. reflexivity.
  - reflexivity.
  - intros [H | (rest & H)]; vm_compute in H; discriminate H.
  - intros [H | (rest & H)]; vm_compute in H; discriminate H.
  - split; [right; left; reflexivity|].
    split; [repeat split|].
    vm_compute. reflexivity.
Defined.
